(** * Versa-Forge: a shallow embedding of the agent, category, user,
    credential and file services, and the properties of their access
    control and uniqueness checks.

    Python strings are Stdlib [string]s of ASCII characters, integers are
    [Z], ORM tables are lists of records in insertion order (so that
    [scalar_one_or_none] can see duplicate matches), and every service
    call is a function from the persisted state to a result and the new
    persisted state.  A raised exception is the [Err] branch of [result]. *)

From Stdlib Require Import ZArith List String Ascii Bool Lia Permutation.
From Stdlib Require Import DecimalString DecimalZ.
Import ListNotations.
Open Scope string_scope.
Open Scope Z_scope.

(** ** Python values shared by all services *)

(** Exceptions raised by the services, by the ORM and by the interpreter. *)
Inductive exc :=
| ResourceNotFoundException (resource : string) (ident : string)
| DuplicateResourceException (resource : string) (ident : string)
| DuplicateCategoryException (name : string)
| PermissionDeniedException (message : string)
| InvalidInputException (message : string)
| UnsupportedFileTypeException (file_type : string)
| HTTPException (status_code : Z) (detail : string)
| IntegrityError (constraint : string)
| DataError (message : string)
| MultipleResultsFound
| NameError (name : string)
| TypeError (message : string)
| ImportError (name : string)
| ValueError (message : string)
| AttributeError (message : string)
| Exception_ (message : string).

Inductive result (A : Type) :=
| Ok (a : A)
| Err (e : exc).
Arguments Ok {A} a.
Arguments Err {A} e.

Definition bind {A B} (r : result A) (k : A -> result B) : result B :=
  match r with Ok a => k a | Err e => Err e end.

Notation "x <- r ;; k" := (bind r (fun x => k))
  (at level 61, r at next level, right associativity).

(** [str(n)] of a Python [int]: decimal digits, a leading '-' when negative. *)
Definition py_int_str (n : Z) : string :=
  NilEmpty.string_of_int (Z.to_int n).

(** [Result.scalar_one_or_none()]: no row gives [None], one row gives it,
    more rows raise [MultipleResultsFound]. *)
Definition scalar_one_or_none {A} (rows : list A) : result (option A) :=
  match rows with
  | [] => Ok None
  | [x] => Ok (Some x)
  | _ :: _ :: _ => Err MultipleResultsFound
  end.

(** Membership of a string in a list of names. *)
Definition str_in (x : string) (l : list string) : bool :=
  existsb (String.eqb x) l.

Fixpoint nodupb {A} (eqb : A -> A -> bool) (l : list A) : bool :=
  match l with
  | [] => true
  | x :: l' => negb (existsb (eqb x) l') && nodupb eqb l'
  end.

(** ** Agents: [app/services/agent_service.py] over the [agents] table *)
Module Agents.

(** A row of the [agents] table ([Agent] in [database_models.py]);
    [created_at] is a server default and plays no role here. *)
Record Agent := mkAgent {
  id : Z;
  name : string;
  description : option string;
  prompt : string;
  is_public : bool;
  owner_id : Z
}.

(** [AgentResponse.model_validate(agent)] copies the columns. *)
Definition AgentResponse := Agent.

(** The persisted state: the [agents] rows, the [agent_categories] rows
    (agent id, category id), the next value of the id sequence and the
    ids of the [users] rows, which [agents.owner_id] references. *)
Record Db := mkDb {
  agents : list Agent;
  agent_categories : list (Z * Z);
  next_id : Z;
  user_ids : list Z
}.

(** [AgentCreate] of [app/db/schemas/agent_schemas.py]. *)
Record AgentCreate := mkAgentCreate {
  c_name : string;
  c_description : option string;
  c_prompt : string;
  c_is_public : bool;
  c_categories : list Z
}.

(** [AgentUpdate]: each field is unset ([None]) or set, and a set field
    may be JSON [null] (inner [None]); [model_dump(exclude_unset=True)]
    keeps exactly the set ones. *)
Record AgentUpdate := mkAgentUpdate {
  u_name : option (option string);
  u_description : option (option string);
  u_prompt : option (option string);
  u_is_public : option (option bool);
  u_categories : option (option (list Z))
}.

(** Names bound where [get_agent_by_id] looks up [user_id]: its only
    integer local is [agent_id]; neither the module nor the builtins
    define [user_id]. *)
Definition get_agent_by_id_locals (agent_id : Z) : list (string * Z) :=
  [("agent_id", agent_id)].

Definition py_lookup (env : list (string * Z)) (x : string) : result Z :=
  match find (fun p => String.eqb (fst p) x) env with
  | Some (_, v) => Ok v
  | None => Err (NameError x)
  end.

(** [AgentService.get_agent_by_id(db, agent_id)]. *)
Definition get_agent_by_id (db : Db) (agent_id : Z) : result AgentResponse :=
  agent <- scalar_one_or_none (filter (fun a => id a =? agent_id) (agents db)) ;;
  match agent with
  | None => Err (ResourceNotFoundException "Agent" (py_int_str agent_id))
  | Some a =>
      if negb (is_public a) then
        user_id <- py_lookup (get_agent_by_id_locals agent_id) "user_id" ;;
        if negb (owner_id a =? user_id) then
          Err (PermissionDeniedException "You do not have access to this agent.")
        else Ok a
      else Ok a
  end.

(** [name] is a [VARCHAR(100)]. *)
Definition name_fits (a : Agent) : bool := (String.length (name a) <=? 100)%nat.

(** The constraints the database checks at commit: [name] fits its
    column and is unique, and [owner_id] is the id of a [users] row. *)
Definition agents_ok (db : Db) : bool :=
  nodupb String.eqb (map name (agents db))
  && forallb (fun a => name_fits a && existsb (Z.eqb (owner_id a)) (user_ids db)) (agents db).

(** [db.commit()] of a session whose pending state is [db']: the commit
    succeeds when the constraints hold; a name too long for its column is
    a [DataError], a duplicate name or a missing owner an
    [IntegrityError]. *)
Definition commit (db' : Db) : result Db :=
  if agents_ok db' then Ok db'
  else if forallb name_fits (agents db') then Err (IntegrityError "agents")
  else Err (DataError "value too long for type character varying(100)").

(** [AgentService.create_agent]: the row is added and committed; an
    [SQLAlchemyError] is rolled back and re-raised as [Exception].  The
    INSERT draws the id from the sequence before the row is refused, and a
    rollback does not return it. *)
Definition create_agent (db : Db) (agent_data : AgentCreate) (owner : Z)
  : result AgentResponse * Db :=
  let new_agent := mkAgent (next_id db) (c_name agent_data) (c_description agent_data)
                     (c_prompt agent_data) (c_is_public agent_data) owner in
  let pending := mkDb (agents db ++ [new_agent]) (agent_categories db) (next_id db + 1)
                      (user_ids db) in
  match commit pending with
  | Ok db' => (Ok new_agent, db')
  | Err _ => (Err (Exception_ "Failed to create agent"),
              mkDb (agents db) (agent_categories db) (next_id db + 1) (user_ids db))
  end.

(** The [setattr] loop of [update_agent], field by field in declaration
    order.  Setting a nullable column to [None] is accepted here and
    rejected at commit ([Err] of the inner result); assigning a non-empty
    list of ints to the [categories] relationship raises at once (outer
    [Err]); an empty list clears the associations. *)
Definition apply_update (a : Agent) (links : list (Z * Z)) (u : AgentUpdate)
  : result (result (Agent * list (Z * Z))) :=
  let set_required {T} (f : option (option T)) (old : T) : result T :=
    match f with
    | None => Ok old
    | Some None => Err (IntegrityError "not null")
    | Some (Some v) => Ok v
    end in
  let categories :=
    match u_categories u with
    | None => Ok links
    | Some (Some []) => Ok (filter (fun l => negb (fst l =? id a)) links)
    | Some (Some (_ :: _)) =>
        Err (AttributeError "'int' object has no attribute '_sa_instance_state'")
    | Some None => Err (TypeError "'NoneType' object is not iterable")
    end in
  match categories with
  | Err e => Err e
  | Ok links' =>
      Ok (n <- set_required (u_name u) (name a) ;;
          p <- set_required (u_prompt u) (prompt a) ;;
          pub <- set_required (u_is_public u) (is_public a) ;;
          let d := match u_description u with None => description a | Some d => d end in
          Ok (mkAgent (id a) n d p pub (owner_id a), links'))
  end.

Definition replace_agent (l : list Agent) (a : Agent) : list Agent :=
  map (fun b => if id b =? id a then a else b) l.

(** [AgentService.update_agent(db, agent_id, agent_data, owner_id)]. *)
Definition update_agent (db : Db) (agent_id : Z) (agent_data : AgentUpdate) (owner : Z)
  : result AgentResponse * Db :=
  match scalar_one_or_none
          (filter (fun a => (id a =? agent_id) && (owner_id a =? owner)) (agents db)) with
  | Err e => (Err e, db)
  | Ok None => (Err (ResourceNotFoundException "Agent" (py_int_str agent_id)), db)
  | Ok (Some a) =>
      match apply_update a (agent_categories db) agent_data with
      | Err e => (Err e, db)
      | Ok (Err _) => (Err (Exception_ "Failed to update agent"), db)
      | Ok (Ok (a', links')) =>
          match commit (mkDb (replace_agent (agents db) a') links' (next_id db) (user_ids db)) with
          | Ok db' => (Ok a', db')
          | Err _ => (Err (Exception_ "Failed to update agent"), db)
          end
      end
  end.

(** [AgentService.delete_agent(db, agent_id, owner_id)]; the delete
    cascades to the agent's category links. *)
Definition delete_agent (db : Db) (agent_id : Z) (owner : Z) : result bool * Db :=
  match scalar_one_or_none
          (filter (fun a => (id a =? agent_id) && (owner_id a =? owner)) (agents db)) with
  | Err e => (Err e, db)
  | Ok None => (Ok false, db)
  | Ok (Some a) =>
      let pending := mkDb (filter (fun b => negb (id b =? id a)) (agents db))
                          (filter (fun l => negb (fst l =? id a)) (agent_categories db))
                          (next_id db) (user_ids db) in
      match commit pending with
      | Ok db' => (Ok true, db')
      | Err _ => (Ok false, db)
      end
  end.

End Agents.

(** ** Python [str] helpers on ASCII strings *)
Module PyStr.

(** [str.isspace()] on an ASCII character: '\t' to '\r' and '\x1c' to ' '. *)
Definition is_space (c : ascii) : bool :=
  let n := nat_of_ascii c in
  (Nat.leb 9 n && Nat.leb n 13) || (Nat.leb 28 n && Nat.leb n 32).

Definition is_digit (c : ascii) : bool :=
  let n := nat_of_ascii c in Nat.leb 48 n && Nat.leb n 57.
Definition is_upper (c : ascii) : bool :=
  let n := nat_of_ascii c in Nat.leb 65 n && Nat.leb n 90.
Definition is_lower (c : ascii) : bool :=
  let n := nat_of_ascii c in Nat.leb 97 n && Nat.leb n 122.

(** [str.isalnum()] on an ASCII character. *)
Definition is_alnum (c : ascii) : bool := is_digit c || is_upper c || is_lower c.

(** Case folding of one character, as [lower()] and [ILIKE] do on ASCII. *)
Definition lower (c : ascii) : ascii :=
  if is_upper c then ascii_of_nat (nat_of_ascii c + 32) else c.

Fixpoint lower_str (s : string) : string :=
  match s with
  | EmptyString => EmptyString
  | String c s' => String (lower c) (lower_str s')
  end.

Fixpoint lstrip (s : string) : string :=
  match s with
  | EmptyString => EmptyString
  | String c s' => if is_space c then lstrip s' else s
  end.

Fixpoint rstrip (s : string) : string :=
  match s with
  | EmptyString => EmptyString
  | String c s' =>
      let r := rstrip s' in
      if is_space c && String.eqb r "" then "" else String c r
  end.

(** [str.strip()]. *)
Definition strip (s : string) : string := rstrip (lstrip s).

(** [s.replace(a, b)] for one-character [a] and [b]. *)
Fixpoint replace_char (a b : ascii) (s : string) : string :=
  match s with
  | EmptyString => EmptyString
  | String c s' => String (if Ascii.eqb c a then b else c) (replace_char a b s')
  end.

Fixpoint all_chars (f : ascii -> bool) (s : string) : bool :=
  match s with
  | EmptyString => true
  | String c s' => f c && all_chars f s'
  end.

Fixpoint has_char (a : ascii) (s : string) : bool :=
  match s with
  | EmptyString => false
  | String c s' => Ascii.eqb c a || has_char a s'
  end.

End PyStr.

(** ** Categories: [app/services/categories_service.py] *)
Module Categories.
Import PyStr.

(** The [name] validator of [CategoryBase] in
    [app/db/schemas/category_schemas.py]; [Field(min_length=5,
    max_length=100)] is checked on the raw value first. *)
Definition validate_name (value : string) : result string :=
  if negb (Nat.leb 5 (String.length value) && Nat.leb (String.length value) 100) then
    Err (ValueError "String should have between 5 and 100 characters")
  else
    let stripped_value := strip value in
    if String.eqb stripped_value "" then
      Err (ValueError "Category name cannot be empty or contain only spaces.")
    else if negb (all_chars (fun c => is_alnum c || is_space c
                                     || Ascii.eqb c "-" || Ascii.eqb c "'") stripped_value) then
      Err (ValueError "Category name must contain only letters, numbers, spaces, hyphens, or apostrophes.")
    else Ok stripped_value.

Record CategoryCreate := mkCategoryCreate {
  cc_name : string;
  cc_description : option string
}.

(** Building a [CategoryCreate] from a request body runs the validator. *)
Definition mk_category_create (raw : string) (desc : option string) : result CategoryCreate :=
  v <- validate_name raw ;; Ok (mkCategoryCreate v desc).

(** A row of the [categories] table. *)
Record Category := mkCategory {
  cat_id : Z;
  cat_name : string;
  cat_description : option string
}.

Record Db := mkDb {
  categories : list Category;
  next_cat_id : Z
}.

(** PostgreSQL [s ILIKE p]: '%' matches any run, '_' one character,
    '\' escapes the next character, letters compare case-insensitively.
    A pattern ending in a lone '\' is an SQL error; it matches nothing
    here (validated names hold no '\'). *)
Fixpoint ilike (p s : string) : bool :=
  match p with
  | EmptyString => String.eqb s ""
  | String c p' =>
      if Ascii.eqb c "%" then
        (fix star (s : string) : bool :=
           ilike p' s || match s with EmptyString => false | String _ s' => star s' end) s
      else if Ascii.eqb c "_" then
        match s with EmptyString => false | String _ s' => ilike p' s' end
      else if Ascii.eqb c "\" then
        match p' with
        | EmptyString => false
        | String e p'' =>
            match s with
            | EmptyString => false
            | String d s' => Ascii.eqb (lower e) (lower d) && ilike p'' s'
            end
        end
      else
        match s with
        | EmptyString => false
        | String d s' => Ascii.eqb (lower c) (lower d) && ilike p' s'
        end
  end.

(** [CategoryService._validate_unique_category(db, name, exclude_id)];
    [if exclude_id:] skips the filter for [None] and for [0]. *)
Definition validate_unique_category (db : Db) (name : string) (exclude_id : option Z)
  : result unit :=
  let keep (c : Category) :=
    ilike (strip name) (cat_name c)
    && match exclude_id with
       | Some x => if x =? 0 then true else negb (cat_id c =? x)
       | None => true
       end in
  r <- scalar_one_or_none (filter keep (categories db)) ;;
  match r with
  | Some _ => Err (DuplicateCategoryException name)
  | None => Ok tt
  end.

(** The [UNIQUE] constraint on [categories.name], checked at [flush()];
    it compares names exactly. *)
Definition names_ok (l : list Category) : bool :=
  nodupb String.eqb (map cat_name l).

(** [CategoryService.create_category(db, category_data)]; on an error
    the request's session is rolled back, so the rows are the old ones,
    but an INSERT refused at [flush()] has drawn its id from the
    sequence. *)
Definition create_category (db : Db) (category_data : CategoryCreate)
  : result Category * Db :=
  match validate_unique_category db (strip (cc_name category_data)) None with
  | Err e => (Err e, db)
  | Ok _ =>
      let new_category := mkCategory (next_cat_id db) (strip (cc_name category_data))
                                      (cc_description category_data) in
      let rows := (categories db ++ [new_category])%list in
      if names_ok rows then (Ok new_category, mkDb rows (next_cat_id db + 1))
      else (Err (IntegrityError "categories_name_key"), mkDb (categories db) (next_cat_id db + 1))
  end.

End Categories.

(** ** Users: [UserService.authenticate_user] of [app/services/user_service.py] *)
Module Users.

(** A row of the [users] table. *)
Record User := mkUser {
  id : Z;
  username : string;
  full_name : option string;
  email : string;
  password_hash : string;
  is_active : bool
}.

(** [UserResponse] of [app/db/schemas/user_schemas.py]. *)
Record UserResponse := mkUserResponse {
  r_id : Z;
  r_username : string;
  r_full_name : option string;
  r_email : string;
  r_is_active : bool
}.

Definition to_response (u : User) : UserResponse :=
  mkUserResponse (id u) (username u) (full_name u) (email u) (is_active u).

Definition Db := list User.

Section Authenticate.

(** [verify_password(plain, hashed)] of [app/core/security.py], the
    passlib bcrypt check. *)
Variable verify_password : string -> string -> bool.

(** [UserService.authenticate_user(db, username, password)]: a read-only
    query, so the state comes back as it was. *)
Definition authenticate_user (db : Db) (uname password : string) : result UserResponse * Db :=
  match scalar_one_or_none (filter (fun u => String.eqb (username u) uname) db) with
  | Err e => (Err e, db)
  | Ok None => (Err (ResourceNotFoundException "User" uname), db)
  | Ok (Some user) =>
      if negb (verify_password password (password_hash user)) then
        (Err (PermissionDeniedException "Invalid password"), db)
      else (Ok (to_response user), db)
  end.

End Authenticate.

End Users.

(** ** Group membership: [UserService.assign_user_to_group] *)
Module Groups.

(** The committed [user_groups] rows (user id, group id) with the ids of
    the [users] and [groups] rows they reference. *)
Record Db := mkDb {
  user_groups : list (Z * Z);
  user_ids : list Z;
  group_ids : list Z
}.

(** An [AsyncSession]: the committed state and the rows flushed in the
    current transaction. *)
Record Session := mkSession {
  base : Db;
  pending : list (Z * Z)
}.

Definition pair_eqb (p q : Z * Z) : bool := (fst p =? fst q) && (snd p =? snd q).

(** The constraints checked at [flush()]: the primary key
    [(user_id, group_id)] and both foreign keys. *)
Definition memberships_ok (db : Db) (rows : list (Z * Z)) : bool :=
  nodupb pair_eqb rows
  && forallb (fun p => existsb (Z.eqb (fst p)) (user_ids db)
                       && existsb (Z.eqb (snd p)) (group_ids db)) rows.

(** [UserService.assign_user_to_group(db, user_id, group_id)]: add, flush;
    an [IntegrityError] rolls the whole transaction back and is raised as
    [DuplicateResourceException]. *)
Definition assign_user_to_group (s : Session) (user_id group_id : Z) : result unit * Session :=
  let rows := (pending s ++ [(user_id, group_id)])%list in
  if memberships_ok (base s) (user_groups (base s) ++ rows) then
    (Ok tt, mkSession (base s) rows)
  else
    (Err (DuplicateResourceException "UserGroup"
            ("user_id=" ++ py_int_str user_id ++ ", group_id=" ++ py_int_str group_id)),
     mkSession (base s) []).

(** [get_db]: a fresh session per request, committed when the handler
    returns and rolled back when it raises. *)
Definition in_request {A} (db : Db) (f : Session -> result A * Session) : result A * Db :=
  let (r, s) := f (mkSession db []) in
  match r with
  | Ok a => (Ok a, mkDb (user_groups (base s) ++ pending s) (user_ids db) (group_ids db))
  | Err e => (Err e, db)
  end.

Definition assign_request (db : Db) (user_id group_id : Z) : result unit * Db :=
  in_request db (fun s => assign_user_to_group s user_id group_id).

End Groups.

(** ** Credentials: [create_jwt_token] and [get_jwt_payload] of
    [app/core/security.py] over PyJWT *)
Module Tokens.

(** [TokenData] of [app/db/schemas/token_schema.py]. *)
Record TokenData := mkTokenData {
  td_id : Z;
  td_username : string;
  td_full_name : option string;
  td_email : option string;
  td_is_active : bool
}.

(** The JWT claims: [token_data.model_dump()] plus ["exp"] (seconds). *)
Record Claims := mkClaims {
  claims_data : TokenData;
  exp : option Z
}.

(** A compact JWS: header algorithm, claims and signature, or a string
    that does not parse as one. *)
Inductive Token :=
| Jws (alg : string) (payload : Claims) (signature : string)
| Garbled (raw : string).

(** PyJWT's error classes; all but [ExpiredSignatureError] derive from
    [InvalidTokenError] through [DecodeError] or directly. *)
Inductive jwt_error :=
| DecodeError
| InvalidAlgorithmError
| InvalidSignatureError
| ExpiredSignatureError.

(** Time in microseconds since the epoch, as [datetime] keeps it. *)
Definition us_per_s : Z := 1000000.

(** [timedelta(minutes=30)]. *)
Definition thirty_minutes : Z := 30 * 60 * us_per_s.

Section Codec.

(** The HMAC of the signing input under a key and an algorithm. *)
Variable sign : string -> string -> Claims -> string.

(** [jwt.encode(payload, key, algorithm)] for an HMAC algorithm (HS256,
    HS384, HS512) and an ordinary string secret.  PyJWT raises instead of
    signing for any other algorithm with such a key; no property below
    uses one. *)
Definition jwt_encode (key alg : string) (c : Claims) : Token :=
  Jws alg c (sign key alg c).

(** [jwt.decode(token, key, algorithms)] at time [now] (microseconds):
    structure, then algorithm, then signature, then ["exp"] with
    [exp <= now] meaning expired. *)
Definition jwt_decode (key : string) (algorithms : list string) (tok : Token) (now : Z)
  : Claims + jwt_error :=
  match tok with
  | Garbled _ => inr DecodeError
  | Jws alg c sig =>
      if negb (str_in alg algorithms) then inr InvalidAlgorithmError
      else if negb (String.eqb sig (sign key alg c)) then inr InvalidSignatureError
      else match exp c with
           | Some e => if e * us_per_s <=? now then inr ExpiredSignatureError else inl c
           | None => inl c
           end
  end.

(** [create_jwt_token(token_data, expires_delta)] at time [now]: the
    delta is [expires_delta or timedelta(minutes=30)], and PyJWT stores the
    expiry as whole seconds. *)
Definition create_jwt_token (secret_key algorithm : string) (token_data : TokenData)
  (expires_delta : option Z) (now : Z) : Token :=
  let delta := match expires_delta with
               | Some d => if d =? 0 then thirty_minutes else d
               | None => thirty_minutes
               end in
  let expire := now + delta in
  jwt_encode secret_key algorithm (mkClaims token_data (Some (expire / us_per_s))).

(** [get_jwt_payload(token)] at time [now]; [TokenData.model_validate]
    ignores the extra ["exp"] key. *)
Definition get_jwt_payload (secret_key : string) (tok : Token) (now : Z) : result TokenData :=
  match jwt_decode secret_key ["HS256"] tok now with
  | inl c => Ok (claims_data c)
  | inr ExpiredSignatureError => Err (HTTPException 401 "Token expired")
  | inr _ => Err (HTTPException 401 "Invalid token")
  end.

End Codec.

End Tokens.

(** ** Agent files: [app/services/agent_file_service.py] *)
Module Files.
Import PyStr.

(** The classes [app/core/exceptions.py] defines. *)
Definition exceptions_module_names : list string :=
  ["ResourceNotFoundException"; "DuplicateResourceException";
   "PermissionDeniedException"; "InvalidInputException";
   "CategoryNotFoundException"; "DuplicateCategoryException";
   "AgentNotFoundException"; "DuplicateAgentException";
   "UnauthorizedAgentAccessException"; "AgentFileUploadException";
   "FileNotFoundException"; "FileUploadException";
   "UnsupportedFileTypeException"; "LLMProviderNotFoundException";
   "LLMResponseException"; "InvalidPromptException";
   "DatabaseException"; "TransactionRollbackException"].

(** [from module import a, b, ...]: the first missing name raises. *)
Definition import_from (module_names wanted : list string) : result unit :=
  match find (fun x => negb (str_in x module_names)) wanted with
  | Some x => Err (ImportError x)
  | None => Ok tt
  end.

(** Loading [agent_file_service] runs its imports from
    [app.core.exceptions]. *)
Definition load_agent_file_service : result unit :=
  import_from exceptions_module_names ["PermissionDeniedError"; "UnsupportedFileTypeError"].

(** Binding a call's arguments to a [def] with parameters [params]:
    [npos] positional arguments, then the keyword names in order. *)
Definition bind_call (params : list string) (npos : nat) (kwargs : list string) : result unit :=
  if Nat.ltb (List.length params) npos then Err (TypeError "too many positional arguments")
  else
    let bound := firstn npos params in
    match find (fun k => negb (str_in k params)) kwargs with
    | Some k => Err (TypeError ("got an unexpected keyword argument '" ++ k ++ "'"))
    | None =>
        match find (fun k => str_in k bound) kwargs with
        | Some k => Err (TypeError ("got multiple values for argument '" ++ k ++ "'"))
        | None =>
            match find (fun p => negb (str_in p (bound ++ kwargs)%list)) params with
            | Some p => Err (TypeError ("missing 1 required positional argument: '" ++ p ++ "'"))
            | None => Ok tt
            end
        end
    end.

(** The parameters of [AgentService.get_agent_by_id]. *)
Definition get_agent_by_id_params : list string := ["db"; "agent_id"].

(** [UploadFile]: client file name, content type and bytes. *)
Record UploadFile := mkUploadFile {
  filename : option string;
  content_type : option string;
  content : string
}.

(** A row of the [agent_files] table. *)
Record AgentFile := mkAgentFile {
  f_id : Z;
  f_agent_id : Z;
  f_filename : string;
  f_content_type : string
}.

(** The persisted state: agents, file rows, the upload directory's files
    (path components to bytes) and the file id sequence. *)
Record Db := mkDb {
  agents_db : Agents.Db;
  agent_files : list AgentFile;
  disk : list (list string * string);
  next_file_id : Z
}.

Definition allowed_types : list string :=
  ["application/pdf";
   "application/vnd.openxmlformats-officedocument.wordprocessingml.document"].

(** [str.split('/')]. *)
Fixpoint split_slash (s : string) : list string :=
  match s with
  | EmptyString => [""]
  | String c s' =>
      match split_slash s' with
      | [] => [String c ""]
      | w :: ws => if Ascii.eqb c "/" then "" :: w :: ws else String c w :: ws
      end
  end.

(** [PurePosixPath(base) / s] as a list of parts: an absolute [s]
    replaces the base, empty and "." components are dropped. *)
Definition path_join (base : list string) (s : string) : list string :=
  let comps := filter (fun w => negb (String.eqb w "") && negb (String.eqb w "."))
                      (split_slash s) in
  match s with
  | String c _ => if Ascii.eqb c "/" then "/" :: comps else (base ++ comps)%list
  | EmptyString => base
  end.

(** [UPLOAD_DIR = Path("./uploads")]. *)
Definition UPLOAD_DIR : list string := ["uploads"].

(** [safe_name = f"{agent_id}_{file.filename.replace('/', '_')}"]. *)
Definition safe_name (agent_id : Z) (fname : string) : string :=
  py_int_str agent_id ++ "_" ++ replace_char "/" "_" fname.

Definition path_eqb (p q : list string) : bool :=
  (List.length p =? List.length q)%nat && forallb (fun x => x) (map (fun '(a, b) => String.eqb a b) (combine p q)).

Definition write_file (d : list (list string * string)) (path : list string) (bytes : string)
  : list (list string * string) :=
  (filter (fun e => negb (path_eqb (fst e) path)) d ++ [(path, bytes)])%list.

Definition remove_file (d : list (list string * string)) (path : list string)
  : list (list string * string) :=
  filter (fun e => negb (path_eqb (fst e) path)) d.

(** Steps 2 to 4 of [save_file]: MIME check, write, metadata row with the
    [(agent_id, filename)] unique constraint and clean-up on failure. *)
Definition save_checked (db : Db) (agent_id : Z) (file : UploadFile) : result AgentFile * Db :=
  let ct := match content_type file with Some t => t | None => "None" end in
  if negb (match content_type file with Some t => str_in t allowed_types | None => false end) then
    (Err (UnsupportedFileTypeException ct), db)
  else
    match filename file with
    | None => (Err (AttributeError "'NoneType' object has no attribute 'replace'"), db)
    | Some fname =>
        let destination := path_join UPLOAD_DIR (safe_name agent_id fname) in
        let disk' := write_file (disk db) destination (content file) in
        if existsb (fun f => (f_agent_id f =? agent_id) && String.eqb (f_filename f) fname)
                   (agent_files db) then
          (Err (IntegrityError "uix_agent_file"),
           mkDb (agents_db db) (agent_files db) (remove_file disk' destination) (next_file_id db))
        else
          let row := mkAgentFile (next_file_id db) agent_id fname ct in
          (Ok row, mkDb (agents_db db) (agent_files db ++ [row]) disk' (next_file_id db + 1))
    end.

(** [AgentFileService.save_file(db_session, agent_id, file, user_id)].
    Step 1 is [await AgentService.get_agent_by_id(db_session,
    agent_id=agent_id, user_id=user_id)]: the arguments are bound first,
    then the call runs, then its (non-awaitable) result is awaited. *)
Definition save_file (db : Db) (agent_id : Z) (file : UploadFile) (user_id : Z)
  : result AgentFile * Db :=
  let step1 : result Agents.AgentResponse :=
    _ <- bind_call get_agent_by_id_params 1 ["agent_id"; "user_id"] ;;
    a <- Agents.get_agent_by_id (agents_db db) agent_id ;;
    Err (TypeError "object AgentResponse can't be used in 'await' expression") in
  match step1 with
  | Err e => (Err e, db)
  | Ok agent =>
      if negb (Agents.owner_id agent =? user_id) then
        (Err (PermissionDeniedException "Not authorized to upload to this agent."), db)
      else save_checked db agent_id file
  end.

(** The upload as the application runs it: the module must load first. *)
Definition upload (db : Db) (agent_id : Z) (file : UploadFile) (user_id : Z)
  : result AgentFile * Db :=
  match load_agent_file_service with
  | Err e => (Err e, db)
  | Ok _ => save_file db agent_id file user_id
  end.

End Files.

(** ** Reachable agent states *)

(** The states the agent service can reach from an empty table. *)
Inductive reachable : Agents.Db -> Prop :=
| reach_init users : reachable (Agents.mkDb [] [] 1 users)
| reach_create db d o : reachable db -> reachable (snd (Agents.create_agent db d o))
| reach_update db i u o : reachable db -> reachable (snd (Agents.update_agent db i u o))
| reach_delete db i o : reachable db -> reachable (snd (Agents.delete_agent db i o)).

(** ** Plain [LIKE] patterns *)

(** The characters a [LIKE] pattern treats specially. *)
Definition like_plain (c : ascii) : bool :=
  negb (Ascii.eqb c "%" || Ascii.eqb c "_" || Ascii.eqb c "\").

(** ** Truth of optional strings *)

(** The value of an [Optional[str]] field under [if x:] and [x or y]:
    [None] and [""] are false. *)
Definition truthy (s : option string) : option string :=
  match s with
  | Some v => if String.eqb v "" then None else Some v
  | None => None
  end.

(** [f"{x}"] of an [Optional[str]]. *)
Definition py_str_opt (s : option string) : string :=
  match s with Some v => v | None => "None" end.

(** ** Listing queries of [app/services/agent_service.py] *)
Module AgentQueries.

(** None of these SELECTs has an [ORDER BY]: the lists below are in table
    order, which is one of the orders the database may return, and the
    properties stated about them do not depend on the order. *)

(** [AgentService.get_agents_by_user(db, user_id)]. *)
Definition get_agents_by_user (db : Agents.Db) (user_id : Z) : list Agents.AgentResponse :=
  filter (fun a => Agents.owner_id a =? user_id) (Agents.agents db).

(** [AgentService.get_public_agents_by_user(db, user_id)]. *)
Definition get_public_agents_by_user (db : Agents.Db) (user_id : Z) : list Agents.AgentResponse :=
  filter (fun a => (Agents.owner_id a =? user_id) && Agents.is_public a) (Agents.agents db).

(** [AgentService.get_all_public_agents(db)]. *)
Definition get_all_public_agents (db : Agents.Db) : list Agents.AgentResponse :=
  filter (fun a => Agents.is_public a) (Agents.agents db).


End AgentQueries.

(** ** The rest of [CategoryService] *)
Module CategoryService.
Import PyStr Categories.

(** [CategoryResponse.model_validate(category)]: [CategoryResponse]
    extends [CategoryBase], so the stored name goes through the [name]
    field's length bounds and validator again. *)
Definition category_response (c : Category) : result Category :=
  v <- validate_name (cat_name c) ;; Ok (mkCategory (cat_id c) v (cat_description c)).



(** [db.get(Category, category_id)]. *)
Definition db_get (db : Db) (category_id : Z) : option Category :=
  find (fun c => cat_id c =? category_id) (categories db).

(** [CategoryNotFoundException(category_id)], a
    [ResourceNotFoundException("Category", category_id)]. *)
Definition category_not_found (category_id : Z) : exc :=
  ResourceNotFoundException "Category" (py_int_str category_id).

(** [CategoryService._get_category(db, category_id)]. *)
Definition _get_category (db : Db) (category_id : Z) : result Category :=
  match db_get db category_id with
  | Some c => Ok c
  | None => Err (category_not_found category_id)
  end.

(** [CategoryService.get_category_by_id(db, category_id)]. *)
Definition get_category_by_id (db : Db) (category_id : Z) : result Category :=
  c <- _get_category db category_id ;; category_response c.

(** [create_category] up to its [return]: [Categories.create_category]
    stops at the flushed row; the response is then validated inside the
    same [try], and the request is rolled back when that raises.  The
    flushed INSERT has drawn the id, which the rollback does not return. *)
Definition create_category_full (db : Db) (category_data : CategoryCreate)
  : result Category * Db :=
  match create_category db category_data with
  | (Ok c, db') =>
      match category_response c with
      | Ok r => (Ok r, db')
      | Err e => (Err e, mkDb (categories db) (next_cat_id db + 1))
      end
  | (Err e, db') => (Err e, db')
  end.

(** [CategoryUpdate]: both fields optional, no validator. *)
Record CategoryUpdate := mkCategoryUpdate {
  cu_name : option string;
  cu_description : option string
}.

(** [CategoryService.update_category(db, category_id, update_data)]: the
    [UPDATE] statement meets the [UNIQUE] constraint on [name]; an error
    anywhere rolls the request back. *)
Definition update_category (db : Db) (category_id : Z) (update_data : CategoryUpdate)
  : result Category * Db :=
  match _get_category db category_id with
  | Err e => (Err e, db)
  | Ok category =>
      let check :=
        match truthy (cu_name update_data) with
        | Some n => validate_unique_category db (strip n) (Some category_id)
        | None => Ok tt
        end in
      match check with
      | Err e => (Err e, db)
      | Ok _ =>
          let new_name := match truthy (cu_name update_data) with
                          | Some n => strip n
                          | None => cat_name category
                          end in
          let new_description := match truthy (cu_description update_data) with
                                 | Some d => Some d
                                 | None => cat_description category
                                 end in
          let rows := map (fun c => if cat_id c =? category_id
                                    then mkCategory (cat_id c) new_name new_description
                                    else c) (categories db) in
          if negb (names_ok rows) then (Err (IntegrityError "categories_name_key"), db)
          else
            match category_response (mkCategory (cat_id category) new_name new_description) with
            | Err e => (Err e, db)
            | Ok r => (Ok r, mkDb rows (next_cat_id db))
            end
      end
  end.

(** [CategoryService.delete_category(db, category_id, strict)]. *)
Definition delete_category (db : Db) (category_id : Z) (strict : bool) : result unit * Db :=
  match db_get db category_id with
  | None =>
      if strict then (Err (category_not_found category_id), db) else (Ok tt, db)
  | Some category =>
      (Ok tt, mkDb (filter (fun c => negb (cat_id c =? cat_id category)) (categories db))
                   (next_cat_id db))
  end.

(** Every stored name is its own validated form. *)
Definition names_valid (l : list Category) : bool :=
  forallb (fun c => match validate_name (cat_name c) with
                    | Ok v => String.eqb v (cat_name c)
                    | Err _ => false
                    end) l.

(** Every stored id is below the next value of the sequence. *)
Definition ids_fresh (db : Db) : bool :=
  forallb (fun c => cat_id c <? next_cat_id db) (categories db).

End CategoryService.

(** ** The rest of [UserService] *)
Module UserService.
Import Users.

(** The [users] table and the next value of its id sequence. *)
Record Db := mkDb {
  users : list User;
  next_user_id : Z
}.

(** [UserCreate] of [app/db/schemas/user_schemas.py]. *)
Record UserCreate := mkUserCreate {
  uc_username : string;
  uc_full_name : option string;
  uc_email : string;
  uc_password : string
}.

(** [UserUpdate]. *)
Record UserUpdate := mkUserUpdate {
  uu_full_name : option string;
  uu_email : option string
}.

(** The [UNIQUE] constraints on [users.username] and [users.email]. *)
Definition users_unique (l : list User) : bool :=
  nodupb String.eqb (map username l) && nodupb String.eqb (map email l).

(** The column types: [username] is a [VARCHAR(50)], [email] and
    [full_name] are [VARCHAR(100)]. *)
Definition row_fits (u : User) : bool :=
  (String.length (username u) <=? 50)%nat && (String.length (email u) <=? 100)%nat
  && match full_name u with
     | Some f => (String.length f <=? 100)%nat
     | None => true
     end.


(** [flush()] writing the row [changed] into the table [rows]: a value
    too long for its column is a [DataError] (raised as the row is
    formed), a duplicate username or email an [IntegrityError]. *)
Definition flush_user (changed : User) (rows : list User) : result unit :=
  if negb (row_fits changed) then Err (DataError "value too long for type character varying")
  else if users_unique rows then Ok tt
  else Err (IntegrityError "users_key").

(** Replace the row(s) with id [user_id]. *)
Definition set_user (l : list User) (user_id : Z) (u : User) : list User :=
  map (fun v => if id v =? user_id then u else v) l.

Section Service.

(** [get_password_hash] and [verify_password] of [app/core/security.py]. *)
Variable get_password_hash : string -> string.
Variable verify_password : string -> string -> bool.

(** [UserService.register_user(db, user_data)]: the new row takes the
    username, email and hash; [is_active] is the server default [true].
    An error of the [flush()] propagates, and the request's rollback keeps
    the rows but not the id the INSERT drew. *)
Definition register_user (db : Db) (user_data : UserCreate) : result UserResponse * Db :=
  match scalar_one_or_none
          (filter (fun u => String.eqb (email u) (uc_email user_data)
                            || String.eqb (username u) (uc_username user_data)) (users db)) with
  | Err e => (Err e, db)
  | Ok (Some existing_user) =>
      let conflict_field :=
        if String.eqb (email existing_user) (uc_email user_data) then "email" else "username" in
      (Err (DuplicateResourceException "User"
              (conflict_field ++ "='"
               ++ (if String.eqb conflict_field "email" then uc_email user_data
                   else uc_username user_data) ++ "'")), db)
  | Ok None =>
      let new_user := mkUser (next_user_id db) (uc_username user_data) None (uc_email user_data)
                             (get_password_hash (uc_password user_data)) true in
      let rows := (users db ++ [new_user])%list in
      match flush_user new_user rows with
      | Ok _ => (Ok (to_response new_user), mkDb rows (next_user_id db + 1))
      | Err e => (Err e, mkDb (users db) (next_user_id db + 1))
      end
  end.

(** [UserService._get_user(db, user_id)]. *)
Definition _get_user (db : Db) (user_id : Z) : result User :=
  r <- scalar_one_or_none (filter (fun u => id u =? user_id) (users db)) ;;
  match r with
  | Some u => Ok u
  | None => Err (ResourceNotFoundException "User" (py_int_str user_id))
  end.

(** [UserService._validate_unique_email(db, email, exclude_id)];
    [if exclude_id:] skips the filter for [None] and for [0]. *)
Definition _validate_unique_email (db : Db) (e : string) (exclude_id : option Z) : result unit :=
  let keep (u : User) :=
    String.eqb (email u) e
    && match exclude_id with
       | Some x => if x =? 0 then true else negb (id u =? x)
       | None => true
       end in
  r <- scalar_one_or_none (filter keep (users db)) ;;
  match r with
  | Some _ => Err (DuplicateResourceException "User" ("email=" ++ e))
  | None => Ok tt
  end.

(** [UserService.update_user_details(db, user_id, update_data)]. *)
Definition update_user_details (db : Db) (user_id : Z) (update_data : UserUpdate)
  : result UserResponse * Db :=
  match _get_user db user_id with
  | Err e => (Err e, db)
  | Ok user =>
      let check := match truthy (uu_email update_data) with
                   | Some e => _validate_unique_email db e (Some user_id)
                   | None => Ok tt
                   end in
      match check with
      | Err e => (Err e, db)
      | Ok _ =>
          let fn := match truthy (uu_full_name update_data) with
                    | Some f => Some f
                    | None => full_name user
                    end in
          let em := match truthy (uu_email update_data) with
                    | Some e => e
                    | None => email user
                    end in
          let user' := mkUser (id user) (username user) fn em (password_hash user) (is_active user) in
          let rows := set_user (users db) user_id user' in
          match flush_user user' rows with
          | Ok _ => (Ok (to_response user'), mkDb rows (next_user_id db))
          | Err (IntegrityError _) =>
              (Err (DuplicateResourceException "User" ("email=" ++ py_str_opt (uu_email update_data))), db)
          | Err e => (Err e, db)
          end
      end
  end.


End Service.

(** [UserService.get_user_by_username(db, username)]. *)
Definition get_user_by_username (db : Db) (uname : string) : result UserResponse :=
  r <- scalar_one_or_none (filter (fun u => String.eqb (username u) uname) (users db)) ;;
  match r with
  | Some u => Ok (to_response u)
  | None => Err (ResourceNotFoundException "User" uname)
  end.

End UserService.

(** ** [UserService.get_user_groups] *)
Module GroupQueries.

(** [select(UserGroup.group_id).where(UserGroup.user_id == user_id)]:
    there is no [ORDER BY], so the list is in table order, one of the
    orders the database may return (an index scan on the primary key
    returns them by group id). *)
Definition get_user_groups (db : Groups.Db) (user_id : Z) : list Z :=
  map snd (filter (fun p => fst p =? user_id) (Groups.user_groups db)).

End GroupQueries.

(** ** [AgentFileService.get_files] *)
Module FileQueries.

(** [AgentFileService.get_files(db_session, agent_id, user_id)]: the same
    step 1 as [save_file], then the file rows of the agent. *)
Definition get_files (db : Files.Db) (agent_id user_id : Z) : result (list Files.AgentFile) :=
  _ <- Files.bind_call Files.get_agent_by_id_params 1 ["agent_id"; "user_id"] ;;
  a <- Agents.get_agent_by_id (Files.agents_db db) agent_id ;;
  agent <- (Err (TypeError "object AgentResponse can't be used in 'await' expression")
            : result Agents.AgentResponse) ;;
  if negb (Agents.owner_id agent =? user_id) then
    Err (PermissionDeniedException "Not authorized to list files for this agent.")
  else Ok (filter (fun f => Files.f_agent_id f =? agent_id) (Files.agent_files db)).

End FileQueries.

(** ** Sample states *)

Definition helper_create : Agents.AgentCreate :=
  Agents.mkAgentCreate "helper" None "You help." true [].

Definition writer_create : Agents.AgentCreate :=
  Agents.mkAgentCreate "writer" (Some "Writes") "You write." false [].

Definition helper_agent : Agents.Agent := Agents.mkAgent 1 "helper" None "You help." true 7.

Definition writer_agent : Agents.Agent := Agents.mkAgent 2 "writer" (Some "Writes") "You write." false 7.

Definition one_agent_db : Agents.Db := snd (Agents.create_agent (Agents.mkDb [] [] 1 [7]) helper_create 7).

Definition two_agents_db : Agents.Db := snd (Agents.create_agent one_agent_db writer_create 7).

Definition linked_agents_db : Agents.Db :=
  Agents.mkDb [helper_agent; writer_agent] [(1, 5); (2, 5); (1, 6)] 3 [7].

Definition books : Categories.Category := Categories.mkCategory 1 "Books" None.

Definition music : Categories.Category := Categories.mkCategory 2 "Music" (Some "Songs").

Definition travel : Categories.Category := Categories.mkCategory 3 "Travel" None.

Definition three_categories : Categories.Db := Categories.mkDb [books; music; travel] 4.

Definition alice_row : Users.User := Users.mkUser 1 "alice" None "alice@example.com" "$2b$secret" true.

Definition bob_row : Users.User := Users.mkUser 2 "bob" (Some "Bob") "bob@example.com" "$2b$hunter2" true.

Definition two_users : UserService.Db := UserService.mkDb [alice_row; bob_row] 3.

Definition demo_hash (p : string) : string := "$2b$" ++ p.

Definition demo_verify (plain hashed : string) : bool := String.eqb hashed ("$2b$" ++ plain).

Definition demo_sign (key alg : string) (c : Tokens.Claims) : string := key ++ ":" ++ alg.

Definition demo_token_data : Tokens.TokenData := Tokens.mkTokenData 1 "alice" None None true.


(** * Properties *)

(** ** Shared lemmas on the list and string helpers *)

Lemma filter_all_false {A} (f : A -> bool) (l : list A) :
  (forall x, In x l -> f x = false) -> filter f l = [].
Proof.
  induction l as [|a l IH]; intros H; simpl; [reflexivity|].
  rewrite (H a (or_introl eq_refl)). apply IH. intros x Hx. apply H. now right.
Qed.

Lemma filter_app_single {A} (f : A -> bool) (l : list A) (x : A) :
  filter f (l ++ [x]) = (filter f l ++ (if f x then [x] else []))%list.
Proof. rewrite filter_app. simpl. destruct (f x); reflexivity. Qed.

Lemma nodupb_app_in {A} (eqb : A -> A -> bool) (l : list A) (x : A) :
  (forall y, eqb y y = true) -> In x l -> nodupb eqb (l ++ [x]) = false.
Proof.
  intros Hrefl. induction l as [|a l IH]; simpl; [tauto|].
  intros [<-|Hin].
  - assert (Hex : existsb (eqb a) (l ++ [a]) = true).
    { apply existsb_exists. exists a. split; [apply in_or_app; right; now left | apply Hrefl]. }
    now rewrite Hex.
  - rewrite (IH Hin). apply andb_false_r.
Qed.

Lemma nodupb_string_NoDup (l : list string) :
  nodupb String.eqb l = true <-> NoDup l.
Proof.
  induction l as [|a l IH]; simpl.
  - split; [constructor | reflexivity].
  - rewrite andb_true_iff, negb_true_iff, IH. split.
    + intros [Hn Hd]. constructor; [|exact Hd].
      intros Hin. assert (existsb (String.eqb a) l = true) as Hc
        by (apply existsb_exists; exists a; split; [exact Hin | apply String.eqb_refl]).
      congruence.
    + intros Hnd. inversion Hnd as [|? ? Hnin Hd]; subst. split; [|exact Hd].
      destruct (existsb (String.eqb a) l) eqn:E; [|reflexivity].
      apply existsb_exists in E as [y [Hy Hey]]. apply String.eqb_eq in Hey. subst. contradiction.
Qed.

Lemma filter_unique_key {A} (f : A -> string) (l : list A) (k : string) (x : A) :
  NoDup (map f l) -> In x l -> f x = k -> filter (fun u => String.eqb (f u) k) l = [x].
Proof.
  induction l as [|a l IH]; simpl; [tauto|].
  intros Hnd Hin Hk. inversion Hnd as [|? ? Hnin Hd]; subst.
  destruct Hin as [<-|Hin].
  - rewrite String.eqb_refl. f_equal. apply filter_all_false.
    intros y Hy. apply String.eqb_neq. intros He. apply Hnin. rewrite <- He. now apply in_map.
  - assert (Hne : String.eqb (f a) (f x) = false).
    { apply String.eqb_neq. intros He. apply Hnin. rewrite He. now apply in_map. }
    rewrite Hne. now apply IH.
Qed.

(** ** Strings: stripping and matching *)
Module StrFacts.
Import PyStr.

Lemma rstrip_idem (s : string) : rstrip (rstrip s) = rstrip s.
Proof.
  induction s as [|c s IH]; simpl; [reflexivity|].
  destruct (is_space c && String.eqb (rstrip s) "") eqn:E; [reflexivity|].
  simpl. rewrite IH, E. reflexivity.
Qed.

Lemma lstrip_head (s : string) :
  lstrip s = "" \/ exists c t, lstrip s = String c t /\ is_space c = false.
Proof.
  induction s as [|c s IH]; simpl; [now left|].
  destruct (is_space c) eqn:E; [exact IH|]. right. now exists c, s.
Qed.

Lemma lstrip_rstrip_nonspace (s : string) :
  (s = "" \/ exists c t, s = String c t /\ is_space c = false) -> lstrip (rstrip s) = rstrip s.
Proof.
  intros [->|[c [t [-> Hc]]]]; simpl; [reflexivity|].
  rewrite Hc. simpl. rewrite Hc. reflexivity.
Qed.

Lemma strip_idem (s : string) : strip (strip s) = strip s.
Proof.
  unfold strip. rewrite lstrip_rstrip_nonspace by apply lstrip_head. apply rstrip_idem.
Qed.

Lemma ilike_plain (p s : string) :
  all_chars like_plain p = true ->
  Categories.ilike p s = String.eqb (lower_str p) (lower_str s).
Proof.
  revert s. induction p as [|c p IH]; intros s Hp.
  - destruct s; reflexivity.
  - simpl in Hp. apply andb_true_iff in Hp as [Hc Hp].
    unfold like_plain in Hc. apply negb_true_iff in Hc.
    apply orb_false_iff in Hc as [Hc Hbs]. apply orb_false_iff in Hc as [Hpc Hus].
    simpl. rewrite Hpc, Hus, Hbs.
    destruct s as [|d s]; [reflexivity|]. simpl. rewrite IH by exact Hp. reflexivity.
Qed.

Lemma name_char_plain (c : ascii) :
  (is_alnum c || is_space c || Ascii.eqb c "-" || Ascii.eqb c "'") = true -> like_plain c = true.
Proof.
  destruct c as [[] [] [] [] [] [] [] []]; vm_compute; intros H; first [reflexivity | discriminate H].
Qed.

Lemma all_chars_mono (f g : ascii -> bool) (s : string) :
  (forall c, f c = true -> g c = true) -> all_chars f s = true -> all_chars g s = true.
Proof.
  intros Hfg. induction s as [|c s IH]; simpl; [reflexivity|].
  rewrite !andb_true_iff. intros [Hc Hs]. split; [apply Hfg, Hc | apply IH, Hs].
Qed.

Lemma has_char_app (a : ascii) (s t : string) :
  has_char a (s ++ t) = has_char a s || has_char a t.
Proof.
  induction s as [|c s IH]; simpl; [reflexivity|]. rewrite IH. apply orb_assoc.
Qed.

Lemma has_char_replace (a b : ascii) (s : string) :
  Ascii.eqb a b = false -> has_char a (replace_char a b s) = false.
Proof.
  intros Hab. induction s as [|c s IH]; simpl; [reflexivity|].
  rewrite IH, orb_false_r. destruct (Ascii.eqb c a) eqn:E; [rewrite Ascii.eqb_sym; exact Hab|exact E].
Qed.

Lemma has_char_uint (a : ascii) (d : Decimal.uint) :
  is_digit a = false -> has_char a (NilEmpty.string_of_uint d) = false.
Proof.
  intros Ha. induction d; simpl; try reflexivity;
    rewrite IHd, orb_false_r; destruct a as [[] [] [] [] [] [] [] []];
    first [reflexivity | discriminate Ha].
Qed.

Lemma has_char_int_str (a : ascii) (n : Z) :
  is_digit a = false -> Ascii.eqb a "-" = false -> has_char a (py_int_str n) = false.
Proof.
  intros Hd Hm. unfold py_int_str, NilEmpty.string_of_int.
  destruct (Z.to_int n) as [d|d]; [now apply has_char_uint|].
  change (Ascii.eqb "-" a || has_char a (NilEmpty.string_of_uint d) = false).
  rewrite Ascii.eqb_sym, Hm, has_char_uint by exact Hd. reflexivity.
Qed.

Lemma py_int_str_inj (m n : Z) : py_int_str m = py_int_str n -> m = n.
Proof.
  unfold py_int_str. intros H.
  assert (Hi : NilEmpty.int_of_string (NilEmpty.string_of_int (Z.to_int m))
             = NilEmpty.int_of_string (NilEmpty.string_of_int (Z.to_int n))) by now rewrite H.
  rewrite !NilEmpty.isi in Hi. injection Hi as Hi. now apply DecimalZ.to_int_inj.
Qed.

Lemma prefix_before_char (a : ascii) (s1 s2 t1 t2 : string) :
  has_char a s1 = false -> has_char a s2 = false ->
  (s1 ++ String a t1 = s2 ++ String a t2)%string -> s1 = s2.
Proof.
  revert s2. induction s1 as [|c s1 IH]; intros [|d s2] H1 H2 He; simpl in *.
  - reflexivity.
  - injection He as -> _. rewrite Ascii.eqb_refl in H2. discriminate H2.
  - injection He as <- _. rewrite Ascii.eqb_refl in H1. discriminate H1.
  - apply orb_false_iff in H1 as [_ H1]. apply orb_false_iff in H2 as [_ H2].
    injection He as -> He. f_equal. now apply IH.
Qed.

Lemma split_slash_plain (s : string) : has_char "/" s = false -> Files.split_slash s = [s].
Proof.
  induction s as [|c s IH]; simpl; [reflexivity|].
  intros H. apply orb_false_iff in H as [Hc Hs]. rewrite (IH Hs), Hc. reflexivity.
Qed.

End StrFacts.

(** ** Agents *)

Lemma commit_ok (p d : Agents.Db) :
  Agents.commit p = Ok d -> d = p /\ Agents.agents_ok p = true.
Proof.
  unfold Agents.commit. destruct (Agents.agents_ok p) eqn:E; intros H;
    [injection H as <-; auto | destruct (forallb _ _); discriminate H].
Qed.








(** C1 (code_bug).  [get_agent_by_id] never returns a private agent: for
    every stored agent that is not public, looking it up by id raises
    [NameError] on the unbound name [user_id], whoever asks (the function
    has no user parameter at all), instead of returning it to its owner
    and refusing others with [PermissionDeniedException]. *)
Theorem get_agent_by_id_private_raises_name_error :
  forall (db : Agents.Db) (agent_id : Z) (a : Agents.Agent),
    filter (fun b => Agents.id b =? agent_id) (Agents.agents db) = [a] ->
    Agents.is_public a = false ->
    Agents.get_agent_by_id db agent_id = Err (NameError "user_id").
Proof.
  intros db agent_id a Hrows Hpriv.
  unfold Agents.get_agent_by_id. rewrite Hrows. simpl. rewrite Hpriv. reflexivity.
Qed.

Lemma get_agent_by_id_private_raises_name_error_witness :
  filter (fun b => Agents.id b =? 1)
         (Agents.agents (Agents.mkDb [Agents.mkAgent 1 "Private Agent" None "p" false 7] [] 2 [7]))
    = [Agents.mkAgent 1 "Private Agent" None "p" false 7]
  /\ Agents.get_agent_by_id (Agents.mkDb [Agents.mkAgent 1 "Private Agent" None "p" false 7] [] 2 [7]) 1
     = Err (NameError "user_id").
Proof.
  split; [reflexivity|].
  apply (get_agent_by_id_private_raises_name_error _ _ (Agents.mkAgent 1 "Private Agent" None "p" false 7));
    reflexivity.
Defined.







(** ** Categories *)

Lemma validate_name_spec (raw v : string) :
  Categories.validate_name raw = Ok v ->
  v = PyStr.strip raw /\ PyStr.all_chars like_plain v = true.
Proof.
  unfold Categories.validate_name.
  destruct (negb _); [discriminate|].
  destruct (String.eqb (PyStr.strip raw) ""); [discriminate|].
  destruct (PyStr.all_chars _ (PyStr.strip raw)) eqn:Hc; simpl; [|discriminate].
  intros H. injection H as <-. split; [reflexivity|].
  exact (StrFacts.all_chars_mono _ _ _ StrFacts.name_char_plain Hc).
Qed.

Lemma mk_category_create_spec (raw : string) (d : option string) (c : Categories.CategoryCreate) :
  Categories.mk_category_create raw d = Ok c ->
  Categories.cc_name c = PyStr.strip raw
  /\ PyStr.all_chars like_plain (Categories.cc_name c) = true.
Proof.
  unfold Categories.mk_category_create.
  destruct (Categories.validate_name raw) as [v|e] eqn:V; simpl; [|discriminate].
  intros H. injection H as <-. exact (validate_name_spec raw v V).
Qed.

(** With a pattern free of wildcards, the uniqueness query selects the
    rows whose name equals it up to case. *)
Lemma unique_query_rows (l : list Categories.Category) (p : string) :
  PyStr.all_chars like_plain p = true ->
  filter (fun c => Categories.ilike p (Categories.cat_name c) && true) l
  = filter (fun c => String.eqb (PyStr.lower_str p) (PyStr.lower_str (Categories.cat_name c))) l.
Proof.
  intros Hp. apply filter_ext. intros c. rewrite andb_true_r. now apply StrFacts.ilike_plain.
Qed.

(** C4 (confirmed).  For two valid category-creation requests whose names
    are equal up to case after trimming, if the first create succeeds then
    the second, run on the resulting state, fails with
    [DuplicateCategoryException] (a [DuplicateResourceException]) and
    leaves the state as it was, so no second row is inserted. *)
Theorem category_duplicate_rejected :
  forall (db db' : Categories.Db) (raw1 raw2 : string) (d1 d2 : option string)
         (c1 c2 : Categories.CategoryCreate) (r1 : Categories.Category),
    Categories.mk_category_create raw1 d1 = Ok c1 ->
    Categories.mk_category_create raw2 d2 = Ok c2 ->
    PyStr.lower_str (PyStr.strip raw1) = PyStr.lower_str (PyStr.strip raw2) ->
    Categories.create_category db c1 = (Ok r1, db') ->
    Categories.create_category db' c2
      = (Err (DuplicateCategoryException (PyStr.strip raw2)), db').
Proof.
  intros db db' raw1 raw2 d1 d2 c1 c2 r1 H1 H2 Hci Hc1.
  apply mk_category_create_spec in H1 as [N1 P1].
  apply mk_category_create_spec in H2 as [N2 P2].
  assert (S1 : PyStr.strip (PyStr.strip (Categories.cc_name c1)) = PyStr.strip raw1)
    by (rewrite N1, !StrFacts.strip_idem; reflexivity).
  assert (S2 : PyStr.strip (PyStr.strip (Categories.cc_name c2)) = PyStr.strip raw2)
    by (rewrite N2, !StrFacts.strip_idem; reflexivity).
  assert (T2 : PyStr.strip (Categories.cc_name c2) = PyStr.strip raw2)
    by (rewrite N2, StrFacts.strip_idem; reflexivity).
  rewrite N1 in P1. rewrite N2 in P2.
  unfold Categories.create_category, Categories.validate_unique_category in *.
  rewrite S1 in Hc1. rewrite S2, T2.
  rewrite (unique_query_rows _ _ P1) in Hc1. rewrite (unique_query_rows _ _ P2).
  destruct (filter (fun c => String.eqb (PyStr.lower_str (PyStr.strip raw1))
                               (PyStr.lower_str (Categories.cat_name c)))
                   (Categories.categories db)) as [|x [|y l]] eqn:F; simpl in Hc1;
    try discriminate Hc1.
  destruct (Categories.names_ok _); [|discriminate Hc1].
  injection Hc1 as <- <-. simpl.
  rewrite filter_app_single. simpl.
  assert (Hst : PyStr.strip (Categories.cc_name c1) = PyStr.strip raw1)
    by (rewrite N1, StrFacts.strip_idem; reflexivity).
  rewrite Hst, <- Hci, String.eqb_refl, F. reflexivity.
Qed.

Lemma category_duplicate_rejected_witness :
  let db := Categories.mkDb [] 1 in
  Categories.mk_category_create "DuplicateCase" None = Ok (Categories.mkCategoryCreate "DuplicateCase" None)
  /\ Categories.mk_category_create " duplicatecase " None = Ok (Categories.mkCategoryCreate "duplicatecase" None)
  /\ Categories.create_category (snd (Categories.create_category db (Categories.mkCategoryCreate "DuplicateCase" None)))
       (Categories.mkCategoryCreate "duplicatecase" None)
     = (Err (DuplicateCategoryException (PyStr.strip " duplicatecase ")),
        snd (Categories.create_category db (Categories.mkCategoryCreate "DuplicateCase" None))).
Proof.
  intros db. split; [reflexivity|]. split; [reflexivity|].
  apply (category_duplicate_rejected db _ "DuplicateCase" " duplicatecase " None None
           (Categories.mkCategoryCreate "DuplicateCase" None)
           (Categories.mkCategoryCreate "duplicatecase" None)
           (Categories.mkCategory 1 "DuplicateCase" None)); reflexivity.
Defined.

(** ** Users *)




(** ** Group membership *)

(** C8 (corrected), counterexample.  Assigning user 1 to group 1 twice,
    in two requests: the first succeeds, the second raises
    [DuplicateResourceException]. *)
Lemma assign_twice_raises :
  let db := Groups.mkDb [] [1] [1] in
  Groups.assign_request db 1 1 = (Ok tt, Groups.mkDb [(1, 1)] [1] [1])
  /\ Groups.assign_request (Groups.mkDb [(1, 1)] [1] [1]) 1 1
     = (Err (DuplicateResourceException "UserGroup" "user_id=1, group_id=1"),
        Groups.mkDb [(1, 1)] [1] [1]).
Proof. split; reflexivity. Qed.

(** C8 (corrected), amended.  Assigning a user to a group they already
    belong to (a committed membership) fails with
    [DuplicateResourceException]: the flush violates the
    (user_id, group_id) primary key, the transaction is rolled back and
    the [IntegrityError] is re-raised under that name; the committed
    memberships are unchanged. *)
Theorem assign_existing_membership_raises :
  forall (db : Groups.Db) (user_id group_id : Z),
    In (user_id, group_id) (Groups.user_groups db) ->
    Groups.assign_request db user_id group_id
    = (Err (DuplicateResourceException "UserGroup"
              ("user_id=" ++ py_int_str user_id ++ ", group_id=" ++ py_int_str group_id)), db).
Proof.
  intros db user_id group_id Hin.
  unfold Groups.assign_request, Groups.in_request, Groups.assign_user_to_group, Groups.memberships_ok.
  simpl. rewrite nodupb_app_in; [reflexivity| |exact Hin].
  intros [u g]. unfold Groups.pair_eqb. simpl. now rewrite !Z.eqb_refl.
Qed.

Lemma assign_existing_membership_raises_witness :
  In (1, 1) (Groups.user_groups (Groups.mkDb [(1, 1)] [1] [1]))
  /\ Groups.assign_request (Groups.mkDb [(1, 1)] [1] [1]) 1 1
     = (Err (DuplicateResourceException "UserGroup"
               ("user_id=" ++ py_int_str 1 ++ ", group_id=" ++ py_int_str 1)),
        Groups.mkDb [(1, 1)] [1] [1]).
Proof.
  split; [now left|]. apply assign_existing_membership_raises. simpl. now left.
Defined.

(** ** Credentials *)

(** C6 (code_bug).  A token issued with [expires_delta = timedelta(0)]
    is accepted on its next use: [expires_delta or timedelta(minutes=30)]
    treats the zero delta as absent, so the embedded expiry is thirty
    minutes ahead, and [get_jwt_payload] returns the snapshot for any use
    in the following 1799 seconds instead of rejecting it as expired. *)
Theorem zero_ttl_token_accepted :
  forall (sign : string -> string -> Tokens.Claims -> string) (key : string)
         (td : Tokens.TokenData) (t_issue t_use : Z),
    t_issue <= t_use <= t_issue + 1799 * Tokens.us_per_s ->
    Tokens.get_jwt_payload sign key
      (Tokens.create_jwt_token sign key "HS256" td (Some 0) t_issue) t_use = Ok td.
Proof.
  intros sign key td t_issue t_use Ht.
  unfold Tokens.get_jwt_payload, Tokens.create_jwt_token, Tokens.jwt_encode, Tokens.jwt_decode.
  simpl. rewrite String.eqb_refl. simpl.
  assert (Hexp : (t_issue + Tokens.thirty_minutes) / Tokens.us_per_s * Tokens.us_per_s > t_use).
  { unfold Tokens.thirty_minutes, Tokens.us_per_s in *.
    pose proof (Z.div_mod (t_issue + 30 * 60 * 1000000) 1000000 ltac:(lia)) as Hd.
    pose proof (Z.mod_pos_bound (t_issue + 30 * 60 * 1000000) 1000000 ltac:(lia)) as Hb.
    lia. }
  destruct (_ <=? t_use) eqn:E; [apply Z.leb_le in E; lia | reflexivity].
Qed.

Lemma zero_ttl_token_accepted_witness :
  let td := Tokens.mkTokenData 1 "alice" None None true in
  let sign := fun (key alg : string) (_ : Tokens.Claims) => (key ++ "." ++ alg)%string in
  Tokens.get_jwt_payload sign "secret"
    (Tokens.create_jwt_token sign "secret" "HS256" td (Some 0) 1700000000000000)
    1700000000000000 = Ok td.
Proof.
  intros td sign. apply zero_ttl_token_accepted. unfold Tokens.us_per_s. lia.
Defined.

(** ** Agent files *)

(** The MIME check that [save_file] is written to run after the ownership
    check: an unsupported type raises [UnsupportedFileTypeException] and
    writes nothing. *)
Lemma save_checked_rejects_type (db : Files.Db) (agent_id : Z) (file : Files.UploadFile) (t : string) :
  Files.content_type file = Some t -> str_in t Files.allowed_types = false ->
  Files.save_checked db agent_id file = (Err (UnsupportedFileTypeException t), db).
Proof. intros Ht Hno. unfold Files.save_checked. rewrite Ht, Hno. reflexivity. Qed.

(** C7 (code_bug).  No upload reaches the MIME check, whatever its
    content type: loading [agent_file_service] fails on the import of
    [PermissionDeniedError], and [save_file] itself fails binding the
    [user_id] keyword for [get_agent_by_id]; either way the error is not
    [UnsupportedFileTypeException], and no file and no row is created. *)
Theorem upload_fails_before_type_check :
  forall (db : Files.Db) (agent_id : Z) (file : Files.UploadFile) (user_id : Z),
    Files.upload db agent_id file user_id = (Err (ImportError "PermissionDeniedError"), db)
    /\ Files.save_file db agent_id file user_id
       = (Err (TypeError "got an unexpected keyword argument 'user_id'"), db).
Proof. intros db agent_id file user_id. split; reflexivity. Qed.

Lemma path_join_plain (base : list string) (s : string) :
  PyStr.has_char "/" s = false -> PyStr.has_char "_" s = true ->
  Files.path_join base s = (base ++ [s])%list.
Proof.
  intros Hs Hu. destruct s as [|c t]; [discriminate Hu|].
  unfold Files.path_join. rewrite StrFacts.split_slash_plain by exact Hs.
  simpl in Hs. apply orb_false_iff in Hs as [Hc _].
  destruct (String.eqb (String c t) ".") eqn:E.
  - apply String.eqb_eq in E. rewrite E in Hu. discriminate Hu.
  - assert (E0 : String.eqb (String c t) "" = false) by reflexivity.
    cbn [filter]. rewrite E0, E. cbn [negb andb]. rewrite Hc. reflexivity.
Qed.

Lemma safe_name_no_slash (agent_id : Z) (fname : string) :
  PyStr.has_char "/" (Files.safe_name agent_id fname) = false.
Proof.
  unfold Files.safe_name. rewrite StrFacts.has_char_app.
  rewrite StrFacts.has_char_int_str by reflexivity. simpl.
  apply StrFacts.has_char_replace. reflexivity.
Qed.

Lemma safe_name_has_underscore (agent_id : Z) (fname : string) :
  PyStr.has_char "_" (Files.safe_name agent_id fname) = true.
Proof.
  unfold Files.safe_name. rewrite StrFacts.has_char_app. simpl. apply orb_true_r.
Qed.

(** C10 (confirmed).  The destination of an upload is the upload
    directory plus one component, [safe_name]: it holds no '/', it is
    neither "." nor "..", so it never leaves the directory; and uploads to
    different agents never share a destination, whatever the file names. *)
Theorem upload_destination_confined :
  forall (a1 a2 : Z) (f1 f2 : string),
    a1 <> a2 ->
    Files.path_join Files.UPLOAD_DIR (Files.safe_name a1 f1) = ["uploads"; Files.safe_name a1 f1]
    /\ PyStr.has_char "/" (Files.safe_name a1 f1) = false
    /\ Files.safe_name a1 f1 <> ".." /\ Files.safe_name a1 f1 <> "."
    /\ Files.safe_name a1 f1 <> Files.safe_name a2 f2.
Proof.
  intros a1 a2 f1 f2 Hne.
  pose proof (safe_name_has_underscore a1 f1) as Hu.
  split; [apply path_join_plain; [apply safe_name_no_slash | exact Hu]|].
  split; [apply safe_name_no_slash|].
  split; [intros E; rewrite E in Hu; discriminate Hu|].
  split; [intros E; rewrite E in Hu; discriminate Hu|].
  intros E. apply Hne. apply StrFacts.py_int_str_inj.
  unfold Files.safe_name in E. simpl in E.
  apply (StrFacts.prefix_before_char "_" _ _ _ _
           (StrFacts.has_char_int_str "_" a1 eq_refl eq_refl)
           (StrFacts.has_char_int_str "_" a2 eq_refl eq_refl) E).
Qed.

Lemma upload_destination_confined_witness :
  Files.path_join Files.UPLOAD_DIR (Files.safe_name 1 "2_x.pdf") = ["uploads"; Files.safe_name 1 "2_x.pdf"]
  /\ PyStr.has_char "/" (Files.safe_name 1 "2_x.pdf") = false
  /\ Files.safe_name 1 "2_x.pdf" <> ".." /\ Files.safe_name 1 "2_x.pdf" <> "."
  /\ Files.safe_name 1 "2_x.pdf" <> Files.safe_name 12 "x.pdf".
Proof. apply upload_destination_confined. lia. Defined.

(** ** Agent queries and the agent service *)

Lemma nodup_map_inj {A B} (f : A -> B) (l : list A) (x y : A) :
  NoDup (map f l) -> In x l -> In y l -> f x = f y -> x = y.
Proof.
  induction l as [|a l IH]; simpl; [tauto|].
  intros Hnd Hx Hy He. inversion Hnd as [|? ? Hnin Hd]; subst.
  destruct Hx as [<-|Hx], Hy as [<-|Hy]; auto.
  - exfalso. apply Hnin. rewrite He. now apply in_map.
  - exfalso. apply Hnin. rewrite <- He. now apply in_map.
Qed.

Lemma map_filter_NoDup {A B} (keep : A -> bool) (key : A -> B) (rows : list A)
  (Hnd : NoDup (map key rows)) : NoDup (map key (filter keep rows)).
Proof.
  revert Hnd. induction rows as [|a l IH]; simpl; [auto|].
  intros Hnd. inversion Hnd as [|? ? Hnin Hd]; subst.
  destruct (keep a); simpl; [|auto].
  constructor; [|auto]. intros Hin. apply Hnin.
  apply in_map_iff in Hin as [y [Hy Hin]]. apply filter_In in Hin as [Hin _].
  rewrite <- Hy. now apply in_map.
Qed.

Lemma filter_one {A} (f : A -> Z) (g : A -> bool) (l : list A) (x : A) :
  NoDup (map f l) -> In x l -> g x = true ->
  (forall y, In y l -> g y = true -> f y = f x) -> filter g l = [x].
Proof.
  induction l as [|a l IH]; simpl; [tauto|].
  intros Hnd Hx Hg Hk. inversion Hnd as [|? ? Hnin Hd]; subst.
  destruct Hx as [<-|Hx].
  - rewrite Hg. f_equal. apply filter_all_false. intros y Hy.
    destruct (g y) eqn:Ey; [|reflexivity]. exfalso. apply Hnin.
    rewrite <- (Hk y (or_intror Hy) Ey). now apply in_map.
  - destruct (g a) eqn:Ea.
    + exfalso. apply Hnin. rewrite (Hk a (or_introl eq_refl) Ea). now apply in_map.
    + apply IH; auto.
Qed.

Lemma scalar_some {A} (l : list A) (a : A) :
  scalar_one_or_none l = Ok (Some a) -> l = [a].
Proof. destruct l as [|x [|y l]]; simpl; intros H; try discriminate H. now injection H as ->. Qed.

Lemma apply_update_id (a a' : Agents.Agent) (links l' : list (Z * Z)) (u : Agents.AgentUpdate) :
  Agents.apply_update a links u = Ok (Ok (a', l')) -> Agents.id a' = Agents.id a.
Proof.
  unfold Agents.apply_update. intros H.
  destruct (Agents.u_categories u) as [[[|c cs]|]|]; try discriminate H;
  destruct (Agents.u_name u) as [[?|]|]; destruct (Agents.u_prompt u) as [[?|]|];
    destruct (Agents.u_is_public u) as [[?|]|]; simpl in H; try discriminate H;
    injection H as <- _; reflexivity.
Qed.

Lemma map_id_replace (l : list Agents.Agent) (a : Agents.Agent) :
  map Agents.id (Agents.replace_agent l a) = map Agents.id l.
Proof.
  unfold Agents.replace_agent. rewrite map_map. apply map_ext. intros b.
  destruct (Agents.id b =? Agents.id a) eqn:E; [apply Z.eqb_eq in E; auto | reflexivity].
Qed.

Lemma in_replace_agent (l : list Agents.Agent) (a b : Agents.Agent) :
  In b (Agents.replace_agent l a) -> b = a \/ In b l.
Proof.
  unfold Agents.replace_agent. intros Hb. apply in_map_iff in Hb as [c [Hc Hin]].
  destruct (Agents.id c =? Agents.id a); subst; auto.
Qed.

Lemma reachable_ids (db : Agents.Db) :
  reachable db ->
  NoDup (map Agents.id (Agents.agents db))
  /\ forall a, In a (Agents.agents db) -> Agents.id a < Agents.next_id db.
Proof.
  induction 1 as [|db d o _ [Hnd Hlt]|db i u o _ [Hnd Hlt]|db i o _ [Hnd Hlt]].
  - split; [constructor | intros a []].
  - unfold Agents.create_agent. destruct (Agents.commit _) as [d'|e] eqn:E; simpl.
    2:{ split; [exact Hnd | intros a Ha; specialize (Hlt a Ha); lia]. }
    apply commit_ok in E as [-> _]. simpl. rewrite map_app. simpl. split.
    + apply NoDup_app; [exact Hnd | repeat constructor; intros [] |].
      intros x Hx [<-|[]]. apply in_map_iff in Hx as [a [Ha Hin]]. specialize (Hlt a Hin). lia.
    + intros a Ha. apply in_app_or in Ha as [Ha|[<-|[]]]; [specialize (Hlt a Ha)|]; simpl; lia.
  - unfold Agents.update_agent.
    destruct (scalar_one_or_none _) as [[a|]|e] eqn:S; simpl; try now split.
    destruct (Agents.apply_update _ _ _) as [[[a' l']|e]|e] eqn:U; simpl; try now split.
    destruct (Agents.commit _) as [d'|e] eqn:E; simpl; [|now split].
    apply commit_ok in E as [-> _]. simpl.
    apply apply_update_id in U. apply scalar_some in S.
    assert (Ha : In a (filter (fun a => (Agents.id a =? i) && (Agents.owner_id a =? o)) (Agents.agents db)))
      by (rewrite S; now left).
    apply filter_In in Ha as [Ha _].
    rewrite map_id_replace. split; [exact Hnd|].
    intros b Hb. apply in_replace_agent in Hb as [->|Hb]; [rewrite U|]; auto.
  - unfold Agents.delete_agent.
    destruct (scalar_one_or_none _) as [[a|]|e]; simpl; try now split.
    destruct (Agents.commit _) as [d'|e] eqn:E; simpl; [|now split].
    apply commit_ok in E as [-> _]. simpl. split; [now apply map_filter_NoDup|].
    intros b Hb. apply filter_In in Hb as [Hb _]. auto.
Qed.

Lemma forallb_filter_true {A} (p q : A -> bool) (l : list A) :
  forallb p l = true -> forallb p (filter q l) = true.
Proof.
  induction l as [|x l IH]; simpl; [auto|]. rewrite andb_true_iff. intros [Hx Hl].
  destruct (q x); simpl; [rewrite Hx|]; auto.
Qed.

(** Removing rows keeps the constraints of the [agents] table. *)
Lemma agents_ok_filter (db : Agents.Db) (q : Agents.Agent -> bool) (links : list (Z * Z)) :
  Agents.agents_ok db = true ->
  Agents.agents_ok (Agents.mkDb (filter q (Agents.agents db)) links (Agents.next_id db)
                                (Agents.user_ids db)) = true.
Proof.
  unfold Agents.agents_ok. simpl. rewrite !andb_true_iff. intros [Hn Hf]. split.
  - apply nodupb_string_NoDup. apply map_filter_NoDup. now apply nodupb_string_NoDup.
  - now apply forallb_filter_true.
Qed.





(** X3. A created agent belongs to its creator, keeps the requested
    [is_public] and is listed among the creator's agents; a public one is
    also found by id, among all public agents and among the creator's public
    agents. *)
Theorem create_agent_then_visible :
  forall (db db' : Agents.Db) (d : Agents.AgentCreate) (o : Z) (a : Agents.Agent),
    reachable db ->
    Agents.create_agent db d o = (Ok a, db') ->
    Agents.owner_id a = o /\ Agents.is_public a = Agents.c_is_public d
    /\ In a (AgentQueries.get_agents_by_user db' o)
    /\ (Agents.is_public a = true ->
        Agents.get_agent_by_id db' (Agents.id a) = Ok a
        /\ In a (AgentQueries.get_all_public_agents db')
        /\ In a (AgentQueries.get_public_agents_by_user db' o)).
Proof.
  intros db db' d o a Hr H. destruct (reachable_ids db Hr) as [_ Hlt].
  unfold Agents.create_agent in H. destruct (Agents.commit _) as [p|e] eqn:E; [|discriminate H].
  injection H as <- <-. apply commit_ok in E as [-> _].
  unfold AgentQueries.get_agents_by_user, AgentQueries.get_all_public_agents,
    AgentQueries.get_public_agents_by_user, Agents.get_agent_by_id; simpl.
  rewrite !filter_app_single. simpl. rewrite !Z.eqb_refl.
  rewrite (filter_all_false (fun b => Agents.id b =? Agents.next_id db)).
  2:{ intros b Hb. specialize (Hlt b Hb). apply Z.eqb_neq. lia. }
  split; [reflexivity|]. split; [reflexivity|].
  split; [apply in_or_app; right; now left|].
  intros Hp. rewrite Hp. simpl. split; [reflexivity|]. split; apply in_or_app; right; now left.
Qed.

(** X4. Deleting an agent as its owner, from a state that passes the
    constraints, succeeds; afterwards the agent is not found, none of its
    category links remain, and every other agent and every other link is
    kept. *)
Theorem delete_agent_then_gone :
  forall (db : Agents.Db) (a : Agents.Agent) (o : Z),
    NoDup (map Agents.id (Agents.agents db)) -> Agents.agents_ok db = true ->
    In a (Agents.agents db) -> Agents.owner_id a = o ->
    exists db',
      Agents.delete_agent db (Agents.id a) o = (Ok true, db')
      /\ Agents.get_agent_by_id db' (Agents.id a)
         = Err (ResourceNotFoundException "Agent" (py_int_str (Agents.id a)))
      /\ (forall l, In l (Agents.agent_categories db') -> fst l <> Agents.id a)
      /\ (forall l, In l (Agents.agent_categories db) -> fst l <> Agents.id a ->
                    In l (Agents.agent_categories db'))
      /\ (forall b, In b (Agents.agents db) -> Agents.id b <> Agents.id a -> In b (Agents.agents db')).
Proof.
  intros db a o Hnd Hok Ha Ho.
  assert (F : filter (fun b => (Agents.id b =? Agents.id a) && (Agents.owner_id b =? o)) (Agents.agents db) = [a]).
  { apply (filter_one Agents.id); [exact Hnd | exact Ha | rewrite Z.eqb_refl, Ho; apply Z.eqb_refl |].
    intros y _ Hy. apply andb_true_iff in Hy as [Hy _]. now apply Z.eqb_eq. }
  unfold Agents.delete_agent. rewrite F. simpl.
  unfold Agents.commit.
  rewrite (agents_ok_filter db (fun b => negb (Agents.id b =? Agents.id a))
             (filter (fun l => negb (fst l =? Agents.id a)) (Agents.agent_categories db)) Hok).
  eexists. split; [reflexivity|]. simpl. split; [|split; [|split]].
  - unfold Agents.get_agent_by_id. simpl. rewrite filter_all_false; [reflexivity|].
    intros b Hb. apply filter_In in Hb as [_ Hb]. now apply negb_true_iff in Hb.
  - intros l Hl. apply filter_In in Hl as [_ Hl]. apply negb_true_iff, Z.eqb_neq in Hl. exact Hl.
  - intros l Hl Hne. apply filter_In. split; [exact Hl|]. apply negb_true_iff, Z.eqb_neq. exact Hne.
  - intros b Hb Hne. apply filter_In. split; [exact Hb|]. apply negb_true_iff, Z.eqb_neq. exact Hne.
Qed.


(** X6. Renaming an agent to the name of another agent fails with [Failed to
    update agent] and leaves the state unchanged. *)
Theorem update_agent_rename_taken :
  forall (db : Agents.Db) (a b : Agents.Agent) (o : Z),
    reachable db -> In a (Agents.agents db) -> In b (Agents.agents db) ->
    Agents.id a <> Agents.id b -> Agents.owner_id a = o ->
    Agents.update_agent db (Agents.id a)
      (Agents.mkAgentUpdate (Some (Some (Agents.name b))) None None None None) o
    = (Err (Exception_ "Failed to update agent"), db).
Proof.
  intros db a b o Hr Ha Hb Hab Ho. destruct (reachable_ids db Hr) as [Hnd _].
  assert (F : filter (fun c => (Agents.id c =? Agents.id a) && (Agents.owner_id c =? o)) (Agents.agents db) = [a]).
  { apply (filter_one Agents.id); [exact Hnd | exact Ha | rewrite Z.eqb_refl, Ho; apply Z.eqb_refl |].
    intros y _ Hy. apply andb_true_iff in Hy as [Hy _]. now apply Z.eqb_eq. }
  unfold Agents.update_agent. rewrite F. simpl.
  set (a' := Agents.mkAgent (Agents.id a) (Agents.name b) (Agents.description a) (Agents.prompt a)
                            (Agents.is_public a) (Agents.owner_id a)).
  unfold Agents.commit.
  destruct (Agents.agents_ok _) eqn:E; [|destruct (forallb _ _); reflexivity].
  exfalso. unfold Agents.agents_ok in E. apply andb_true_iff in E as [E _].
  simpl in E. apply nodupb_string_NoDup in E.
  assert (H1 : In a' (Agents.replace_agent (Agents.agents db) a')).
  { apply in_map_iff. exists a. split; [|exact Ha]. simpl. now rewrite Z.eqb_refl. }
  assert (H2 : In b (Agents.replace_agent (Agents.agents db) a')).
  { apply in_map_iff. exists b. split; [|exact Hb]. simpl.
    destruct (Agents.id b =? Agents.id a) eqn:Eb; [apply Z.eqb_eq in Eb; congruence | reflexivity]. }
  pose proof (nodup_map_inj Agents.name _ a' b E H1 H2 eq_refl) as He.
  apply Hab. rewrite <- He. reflexivity.
Qed.

(** ** The category service *)

Lemma firstn_add {A} (n k : nat) (l : list A) :
  firstn (n + k) l = (firstn n l ++ firstn k (skipn n l))%list.
Proof.
  revert l. induction n as [|n IH]; intros l; [reflexivity|].
  destruct l as [|x l]; simpl; [now destruct k|]. now rewrite IH.
Qed.



Lemma find_all_false {A} (f : A -> bool) (l : list A) :
  (forall x, In x l -> f x = false) -> find f l = None.
Proof.
  induction l as [|a l IH]; simpl; intros H; [reflexivity|].
  rewrite (H a (or_introl eq_refl)). apply IH. intros x Hx. apply H. now right.
Qed.

Lemma find_unique_key {A} (f : A -> Z) (l : list A) (x : A) :
  NoDup (map f l) -> In x l -> find (fun y => f y =? f x) l = Some x.
Proof.
  induction l as [|a l IH]; simpl; [tauto|].
  intros Hnd Hx. inversion Hnd as [|? ? Hnin Hd]; subst.
  destruct Hx as [<-|Hx]; [now rewrite Z.eqb_refl|].
  destruct (f a =? f x) eqn:E; [|auto].
  apply Z.eqb_eq in E. exfalso. apply Hnin. rewrite E. now apply in_map.
Qed.

Lemma scalar_nonempty {A} (l : list A) (x : A) :
  In x l -> exists y, scalar_one_or_none l = Ok (Some y) \/ scalar_one_or_none l = Err MultipleResultsFound.
Proof.
  destruct l as [|a [|b l]]; simpl; intros H; [destruct H| |]; exists a; auto.
Qed.

Lemma validate_name_fixed (x v : string) :
  Categories.validate_name x = Ok v -> PyStr.strip x = x -> v = x.
Proof. intros H Hs. apply validate_name_spec in H as [-> _]. exact Hs. Qed.

Lemma category_response_valid (c : Categories.Category) :
  Categories.validate_name (Categories.cat_name c) = Ok (Categories.cat_name c) ->
  CategoryService.category_response c = Ok c.
Proof. intros H. unfold CategoryService.category_response. rewrite H. now destruct c. Qed.

Lemma names_valid_In (l : list Categories.Category) (c : Categories.Category) :
  CategoryService.names_valid l = true -> In c l ->
  Categories.validate_name (Categories.cat_name c) = Ok (Categories.cat_name c).
Proof.
  unfold CategoryService.names_valid. rewrite forallb_forall. intros H Hc.
  specialize (H c Hc). destruct (Categories.validate_name _) as [v|e]; [|discriminate H].
  apply String.eqb_eq in H. now subst.
Qed.





Lemma find_app_false {A} (f : A -> bool) (l1 l2 : list A) :
  (forall x, In x l1 -> f x = false) -> find f (l1 ++ l2) = find f l2.
Proof.
  induction l1 as [|a l IH]; simpl; intros H; [reflexivity|].
  rewrite (H a (or_introl eq_refl)). apply IH. intros x Hx. apply H. now right.
Qed.

Lemma db_get_some (db : Categories.Db) (cid : Z) (c : Categories.Category) :
  CategoryService.db_get db cid = Some c -> In c (Categories.categories db) /\ Categories.cat_id c = cid.
Proof.
  unfold CategoryService.db_get. intros H. apply find_some in H as [Hin Hc].
  split; [exact Hin|]. now apply Z.eqb_eq.
Qed.

Lemma db_get_none (db : Categories.Db) (cid : Z) :
  (forall c, In c (Categories.categories db) -> Categories.cat_id c <> cid) ->
  CategoryService.db_get db cid = None.
Proof.
  intros H. apply find_all_false. intros c Hc. apply Z.eqb_neq. exact (H c Hc).
Qed.

(** X8. A created category gets the next id and is then found by
    [get_category_by_id]; ids stay below the sequence value. *)
Theorem create_category_then_get :
  forall (db db' : Categories.Db) (d : Categories.CategoryCreate) (r : Categories.Category),
    CategoryService.ids_fresh db = true ->
    CategoryService.create_category_full db d = (Ok r, db') ->
    Categories.cat_id r = Categories.next_cat_id db
    /\ CategoryService.get_category_by_id db' (Categories.cat_id r) = Ok r
    /\ CategoryService.ids_fresh db' = true.
Proof.
  intros db db' d r Hf H.
  unfold CategoryService.create_category_full, Categories.create_category in H.
  destruct (Categories.validate_unique_category _ _ _) as [[]|e]; [|discriminate H].
  destruct (Categories.names_ok _); [|discriminate H].
  destruct (CategoryService.category_response _) as [r'|e] eqn:R; [|discriminate H].
  injection H as <- <-.
  unfold CategoryService.category_response in R. simpl in R.
  destruct (Categories.validate_name _) as [v|e] eqn:V; [|discriminate R].
  simpl in R. injection R as <-. simpl.
  unfold CategoryService.ids_fresh in *. simpl.
  rewrite forallb_forall in Hf.
  split; [reflexivity|]. split.
  - unfold CategoryService.get_category_by_id, CategoryService._get_category, CategoryService.db_get.
    simpl. rewrite find_app_false.
    2:{ intros c Hc. specialize (Hf c Hc). apply Z.ltb_lt in Hf. apply Z.eqb_neq. lia. }
    simpl. rewrite Z.eqb_refl. simpl.
    unfold CategoryService.category_response. simpl. rewrite V. reflexivity.
  - rewrite forallb_app, andb_true_iff. split.
    + apply forallb_forall. intros c Hc. specialize (Hf c Hc). apply Z.ltb_lt in Hf. apply Z.ltb_lt. lia.
    + simpl. rewrite andb_true_r. apply Z.ltb_lt. lia.
Qed.



(** X11. Deleting an existing category succeeds, in strict and non-strict
    mode; afterwards it is not found and every other category is kept. *)
Theorem delete_category_then_gone :
  forall (db : Categories.Db) (cid : Z) (strict : bool),
    (exists c, In c (Categories.categories db) /\ Categories.cat_id c = cid) ->
    exists db',
      CategoryService.delete_category db cid strict = (Ok tt, db')
      /\ CategoryService.get_category_by_id db' cid = Err (CategoryService.category_not_found cid)
      /\ (forall c, In c (Categories.categories db) -> Categories.cat_id c <> cid ->
                    In c (Categories.categories db')).
Proof.
  intros db cid strict [c [Hc Hid]].
  unfold CategoryService.delete_category.
  destruct (CategoryService.db_get db cid) as [c0|] eqn:G.
  - apply db_get_some in G as [_ G]. rewrite G.
    eexists. split; [reflexivity|]. split.
    + unfold CategoryService.get_category_by_id, CategoryService._get_category.
      rewrite db_get_none; [reflexivity|]. simpl.
      intros x Hx. apply filter_In in Hx as [_ Hx]. now apply negb_true_iff, Z.eqb_neq in Hx.
    + intros x Hx Hne. simpl. apply filter_In. split; [exact Hx|]. now apply negb_true_iff, Z.eqb_neq.
  - unfold CategoryService.db_get in G. apply (find_none _ _ G) in Hc. rewrite Hid, Z.eqb_refl in Hc.
    discriminate Hc.
Qed.

(** X12. An update whose name and description are both empty or missing
    returns the category as it was and changes nothing. *)
Theorem update_category_without_values_is_noop :
  forall (db : Categories.Db) (c : Categories.Category) (u : CategoryService.CategoryUpdate),
    NoDup (map Categories.cat_id (Categories.categories db)) ->
    Categories.names_ok (Categories.categories db) = true ->
    CategoryService.names_valid (Categories.categories db) = true ->
    In c (Categories.categories db) ->
    truthy (CategoryService.cu_name u) = None ->
    truthy (CategoryService.cu_description u) = None ->
    CategoryService.update_category db (Categories.cat_id c) u = (Ok c, db).
Proof.
  intros [rows next] c u Hnd Hok Hv Hc Hn Hd. simpl in *.
  unfold CategoryService.update_category, CategoryService._get_category, CategoryService.db_get. simpl.
  rewrite (find_unique_key Categories.cat_id rows c Hnd Hc). rewrite Hn, Hd.
  assert (Hrows : map (fun x => if Categories.cat_id x =? Categories.cat_id c
                                then Categories.mkCategory (Categories.cat_id x) (Categories.cat_name c)
                                                           (Categories.cat_description c)
                                else x) rows = rows).
  { rewrite <- (map_id rows) at 2. apply map_ext_in. intros x Hx.
    destruct (Categories.cat_id x =? Categories.cat_id c) eqn:E; [|reflexivity].
    apply Z.eqb_eq in E. rewrite (nodup_map_inj _ _ x c Hnd Hx Hc E). now destruct c. }
  rewrite Hrows, Hok. simpl.
  assert (Hc' : Categories.mkCategory (Categories.cat_id c) (Categories.cat_name c) (Categories.cat_description c) = c)
    by now destruct c.
  rewrite Hc', (category_response_valid c (names_valid_In rows c Hv Hc)). reflexivity.
Qed.

(** X13. Renaming a category to the name of another category, in any letter
    case, fails and leaves the state unchanged. *)
Theorem update_category_name_taken :
  forall (db : Categories.Db) (c o : Categories.Category) (u : CategoryService.CategoryUpdate) (n : string),
    NoDup (map Categories.cat_id (Categories.categories db)) ->
    In c (Categories.categories db) -> In o (Categories.categories db) ->
    Categories.cat_id c <> Categories.cat_id o ->
    truthy (CategoryService.cu_name u) = Some n ->
    PyStr.all_chars like_plain (PyStr.strip n) = true ->
    PyStr.lower_str (PyStr.strip n) = PyStr.lower_str (Categories.cat_name o) ->
    exists e, CategoryService.update_category db (Categories.cat_id c) u = (Err e, db)
              /\ (e = DuplicateCategoryException (PyStr.strip n) \/ e = MultipleResultsFound).
Proof.
  intros db c o u n Hnd Hc Ho Hco Hn Hp Hl.
  unfold CategoryService.update_category, CategoryService._get_category, CategoryService.db_get.
  rewrite (find_unique_key Categories.cat_id _ c Hnd Hc). rewrite Hn.
  unfold Categories.validate_unique_category. rewrite StrFacts.strip_idem.
  set (keep := fun x : Categories.Category =>
                 Categories.ilike (PyStr.strip n) (Categories.cat_name x)
                 && (if Categories.cat_id c =? 0 then true else negb (Categories.cat_id x =? Categories.cat_id c))).
  assert (Hk : In o (filter keep (Categories.categories db))).
  { apply filter_In. split; [exact Ho|]. unfold keep.
    rewrite (StrFacts.ilike_plain _ _ Hp), Hl, String.eqb_refl. simpl.
    destruct (Categories.cat_id c =? 0); [reflexivity|].
    apply negb_true_iff, Z.eqb_neq. auto. }
  destruct (scalar_nonempty _ _ Hk) as [y [Hy|Hy]]; rewrite Hy; simpl; eexists; split;
    try reflexivity; auto.
Qed.


(** X15. Creation, update and deletion keep every stored category name valid
    for [CategoryResponse]. *)
Theorem category_names_stay_valid :
  forall db : Categories.Db,
    CategoryService.names_valid (Categories.categories db) = true ->
    (forall d, CategoryService.names_valid
                 (Categories.categories (snd (CategoryService.create_category_full db d))) = true)
    /\ (forall cid u, CategoryService.names_valid
                        (Categories.categories (snd (CategoryService.update_category db cid u))) = true)
    /\ (forall cid s, CategoryService.names_valid
                        (Categories.categories (snd (CategoryService.delete_category db cid s))) = true).
Proof.
  intros db Hv. split; [|split].
  - intros d. unfold CategoryService.create_category_full, Categories.create_category.
    destruct (Categories.validate_unique_category _ _ _) as [[]|e]; [|exact Hv].
    destruct (Categories.names_ok _); [|exact Hv].
    destruct (CategoryService.category_response _) as [r|e] eqn:R; [|exact Hv]. simpl.
    unfold CategoryService.category_response in R. simpl in R.
    destruct (Categories.validate_name _) as [v|e] eqn:V; [|discriminate R].
    unfold CategoryService.names_valid in *. rewrite forallb_app, Hv. simpl. rewrite V.
    rewrite (validate_name_fixed _ _ V (StrFacts.strip_idem _)). now rewrite String.eqb_refl.
  - intros cid u. unfold CategoryService.update_category.
    destruct (CategoryService._get_category db cid) as [category|e] eqn:G; [|exact Hv].
    destruct (match truthy (CategoryService.cu_name u) with
              | Some n => Categories.validate_unique_category db (PyStr.strip n) (Some cid)
              | None => Ok tt end) as [[]|e]; [|exact Hv].
    destruct (negb (Categories.names_ok _)); [exact Hv|].
    destruct (CategoryService.category_response _) as [r|e] eqn:R; [|exact Hv]. simpl.
    unfold CategoryService.category_response in R. simpl in R.
    destruct (Categories.validate_name _) as [v|e] eqn:V; [|discriminate R].
    assert (Hfix : v = match truthy (CategoryService.cu_name u) with
                       | Some n => PyStr.strip n
                       | None => Categories.cat_name category end).
    { apply (validate_name_fixed _ _ V). destruct (truthy _) as [n|].
      - apply StrFacts.strip_idem.
      - unfold CategoryService._get_category in G.
        destruct (CategoryService.db_get db cid) as [c0|] eqn:G0; [|discriminate G].
        injection G as <-. apply db_get_some in G0 as [Hin _].
        pose proof (names_valid_In _ _ Hv Hin) as Hc0.
        apply validate_name_spec in Hc0 as [Hc0 _]. congruence. }
    unfold CategoryService.names_valid in *. apply forallb_forall. intros x Hx.
    apply in_map_iff in Hx as [y [Hy Hin]].
    destruct (Categories.cat_id y =? cid); subst x.
    + simpl. rewrite V, <- Hfix. apply String.eqb_refl.
    + rewrite forallb_forall in Hv. exact (Hv y Hin).
  - intros cid s. unfold CategoryService.delete_category.
    destruct (CategoryService.db_get db cid); [|destruct s; exact Hv].
    simpl. unfold CategoryService.names_valid in *. rewrite forallb_forall in *.
    intros x Hx. apply filter_In in Hx as [Hx _]. auto.
Qed.

(** ** Users, groups, tokens and files *)

Lemma filter_single {A} (g : A -> bool) (l : list A) (x : A) :
  NoDup l -> In x l -> g x = true -> (forall y, In y l -> g y = true -> y = x) -> filter g l = [x].
Proof.
  induction l as [|a l IH]; simpl; [tauto|].
  intros Hnd Hx Hg Hk. inversion Hnd as [|? ? Hnin Hd]; subst.
  destruct Hx as [<-|Hx].
  - rewrite Hg. f_equal. apply filter_all_false. intros y Hy.
    destruct (g y) eqn:Ey; [|reflexivity]. exfalso. apply Hnin.
    rewrite <- (Hk y (or_intror Hy) Ey). exact Hy.
  - destruct (g a) eqn:Ea.
    + exfalso. apply Hnin. rewrite (Hk a (or_introl eq_refl) Ea). exact Hx.
    + apply IH; auto.
Qed.

Lemma get_user_found (db : UserService.Db) (u : Users.User) :
  NoDup (map Users.id (UserService.users db)) -> In u (UserService.users db) ->
  UserService._get_user db (Users.id u) = Ok u.
Proof.
  intros Hnd Hu. unfold UserService._get_user.
  rewrite (filter_one Users.id _ _ u Hnd Hu (Z.eqb_refl _)); [reflexivity|].
  intros y _ Hy. now apply Z.eqb_eq.
Qed.




(** X17. A registered user can log in with the registration password and is
    found by username; the stored row has the given username and email, no
    full name, and is active. *)
Theorem register_then_login :
  forall (hash : string -> string) (verify : string -> string -> bool) (db db' : UserService.Db)
         (d : UserService.UserCreate) (r : Users.UserResponse),
    (forall p, verify p (hash p) = true) ->
    UserService.register_user hash db d = (Ok r, db') ->
    Users.authenticate_user verify (UserService.users db') (UserService.uc_username d)
      (UserService.uc_password d) = (Ok r, UserService.users db')
    /\ UserService.get_user_by_username db' (UserService.uc_username d) = Ok r
    /\ Users.r_username r = UserService.uc_username d
    /\ Users.r_email r = UserService.uc_email d
    /\ Users.r_full_name r = None /\ Users.r_is_active r = true.
Proof.
  intros hash verify db db' d r Hv H. unfold UserService.register_user in H.
  destruct (scalar_one_or_none _) as [[u|]|e]; [discriminate H| |discriminate H].
  destruct (UserService.flush_user _ _) eqn:Ok; [|discriminate H].
  injection H as <- <-.
  unfold UserService.flush_user in Ok.
  destruct (negb (UserService.row_fits _)); [discriminate Ok|].
  destruct (UserService.users_unique _) eqn:Hu; [|discriminate Ok]. clear Ok. rename Hu into Ok.
  unfold UserService.users_unique in Ok. apply andb_true_iff in Ok as [Ok _].
  apply nodupb_string_NoDup in Ok.
  unfold Users.authenticate_user, UserService.get_user_by_username. cbn [UserService.users].
  rewrite (filter_unique_key Users.username _ (UserService.uc_username d) _ Ok
             (in_or_app _ _ _ (or_intror (in_eq _ _))) eq_refl).
  simpl. rewrite Hv. simpl. repeat split; reflexivity.
Qed.


(** X19. Changing a user's email to the email of another user raises
    [DuplicateResourceException] with the state unchanged. *)
Theorem update_user_email_taken :
  forall (db : UserService.Db) (u v : Users.User) (fn : option string) (e : string),
    NoDup (map Users.id (UserService.users db)) ->
    NoDup (map Users.email (UserService.users db)) ->
    In u (UserService.users db) -> In v (UserService.users db) ->
    Users.id v <> Users.id u -> Users.email v = e -> e <> "" ->
    UserService.update_user_details db (Users.id u) (UserService.mkUserUpdate fn (Some e))
    = (Err (DuplicateResourceException "User" ("email=" ++ e)), db).
Proof.
  intros db u v fn e Hid He Hu Hv Hvu Hve Hne.
  unfold UserService.update_user_details. rewrite (get_user_found db u Hid Hu). simpl.
  apply String.eqb_neq in Hne as Hne'. rewrite Hne'.
  unfold UserService._validate_unique_email.
  rewrite (filter_single _ _ v (NoDup_map_inv _ _ He) Hv); [reflexivity| |].
  - rewrite Hve, String.eqb_refl. simpl.
    destruct (Users.id u =? 0); [reflexivity|]. apply negb_true_iff, Z.eqb_neq. exact Hvu.
  - intros y Hy Hk. apply andb_true_iff in Hk as [Hk _]. apply String.eqb_eq in Hk.
    apply (nodup_map_inj _ _ y v He Hy Hv). congruence.
Qed.


(** X21. After a successful group assignment the user's groups are the old
    ones and the new group, in some order, and the groups of every other
    user are the same rows as before; a failed assignment changes
    nothing. *)
Theorem assign_then_user_groups :
  forall (db db' : Groups.Db) (r : result unit) (user_id group_id : Z),
    Groups.assign_request db user_id group_id = (r, db') ->
    (r = Ok tt ->
       Permutation (GroupQueries.get_user_groups db' user_id)
         (group_id :: GroupQueries.get_user_groups db user_id)
       /\ forall other, other <> user_id ->
            Permutation (GroupQueries.get_user_groups db' other)
              (GroupQueries.get_user_groups db other))
    /\ (r <> Ok tt -> db' = db).
Proof.
  intros db db' r user_id group_id H.
  unfold Groups.assign_request, Groups.in_request, Groups.assign_user_to_group in H. simpl in H.
  destruct (Groups.memberships_ok _ _); injection H as <- <-; split; try congruence.
  intros _. unfold GroupQueries.get_user_groups. simpl.
  split.
  - rewrite filter_app_single, map_app. simpl. rewrite Z.eqb_refl.
    apply Permutation_sym, Permutation_cons_append.
  - intros other Ho. rewrite filter_app_single, map_app. simpl.
    assert (E : (user_id =? other) = false) by (apply Z.eqb_neq; auto).
    rewrite E. simpl. rewrite app_nil_r. reflexivity.
Qed.

(** X22. A token made by [create_jwt_token] with a non-zero lifetime decodes
    to its data until the expiry, truncated to whole seconds, and is
    rejected as expired from then on. *)
Theorem token_lifetime :
  forall (sign : string -> string -> Tokens.Claims -> string) (key : string) (td : Tokens.TokenData)
         (delta t_issue t_use : Z),
    delta <> 0 ->
    Tokens.get_jwt_payload sign key (Tokens.create_jwt_token sign key "HS256" td (Some delta) t_issue) t_use
    = if (t_issue + delta) / Tokens.us_per_s * Tokens.us_per_s <=? t_use
      then Err (HTTPException 401 "Token expired") else Ok td.
Proof.
  intros sign key td delta t_issue t_use Hd.
  unfold Tokens.get_jwt_payload, Tokens.create_jwt_token, Tokens.jwt_encode, Tokens.jwt_decode.
  apply Z.eqb_neq in Hd. rewrite Hd. simpl. rewrite String.eqb_refl. simpl.
  destruct (_ <=? t_use); reflexivity.
Qed.

(** X23. When the configured [ALGORITHM] is HS384 or HS512, every token made
    by [create_jwt_token] is rejected as invalid by [get_jwt_payload],
    which accepts HS256 only, whatever its expiry. *)
Theorem token_other_algorithm_rejected :
  forall (sign : string -> string -> Tokens.Claims -> string) (key alg : string)
         (td : Tokens.TokenData) (expires_delta : option Z) (t_issue t_use : Z),
    alg = "HS384" \/ alg = "HS512" ->
    Tokens.get_jwt_payload sign key (Tokens.create_jwt_token sign key alg td expires_delta t_issue) t_use
    = Err (HTTPException 401 "Invalid token").
Proof.
  intros sign key alg td ed t_issue t_use Ha.
  destruct Ha as [-> | ->]; reflexivity.
Qed.

(** X24. A token signed under another key is rejected as invalid, even after
    its expiry: the signature is checked before the expiry. *)
Theorem token_other_key_rejected :
  forall (sign : string -> string -> Tokens.Claims -> string) (k1 k2 : string)
         (td : Tokens.TokenData) (expires_delta : option Z) (t_issue t_use : Z),
    (forall c, sign k1 "HS256" c <> sign k2 "HS256" c) ->
    Tokens.get_jwt_payload sign k2 (Tokens.create_jwt_token sign k1 "HS256" td expires_delta t_issue) t_use
    = Err (HTTPException 401 "Invalid token").
Proof.
  intros sign k1 k2 td ed t_issue t_use Hk.
  unfold Tokens.get_jwt_payload, Tokens.create_jwt_token, Tokens.jwt_encode, Tokens.jwt_decode.
  simpl. match goal with |- context [String.eqb ?a ?b] => destruct (String.eqb a b) eqn:E end.
  - apply String.eqb_eq in E. exfalso. exact (Hk _ E).
  - reflexivity.
Qed.

(** X25. [get_files] always raises a [TypeError]: it passes [user_id] to
    [get_agent_by_id], which has no such parameter. *)
Theorem get_files_always_fails :
  forall (db : Files.Db) (agent_id user_id : Z),
    FileQueries.get_files db agent_id user_id
    = Err (TypeError "got an unexpected keyword argument 'user_id'").
Proof. intros db agent_id user_id. reflexivity. Qed.

(** ** Instances of the service properties *)

Lemma one_agent_db_reachable : reachable one_agent_db.
Proof. exact (reach_create _ _ _ (reach_init [7])). Qed.

Lemma two_agents_db_reachable : reachable two_agents_db.
Proof. exact (reach_create _ _ _ one_agent_db_reachable). Qed.

Lemma create_agent_then_visible_witness :
  reachable (Agents.mkDb [] [] 1 [7])
  /\ Agents.create_agent (Agents.mkDb [] [] 1 [7]) helper_create 7 = (Ok helper_agent, one_agent_db)
  /\ In helper_agent (AgentQueries.get_public_agents_by_user one_agent_db 7).
Proof.
  assert (H : Agents.create_agent (Agents.mkDb [] [] 1 [7]) helper_create 7 = (Ok helper_agent, one_agent_db))
    by (vm_compute; reflexivity).
  split; [exact (reach_init [7])|]. split; [exact H|].
  destruct (create_agent_then_visible _ _ _ _ _ (reach_init [7]) H) as [_ [_ [_ Hp]]].
  exact (proj2 (proj2 (Hp eq_refl))).
Defined.

Lemma delete_agent_then_gone_witness :
  NoDup (map Agents.id (Agents.agents linked_agents_db))
  /\ Agents.agents_ok linked_agents_db = true
  /\ In helper_agent (Agents.agents linked_agents_db)
  /\ exists db', Agents.delete_agent linked_agents_db 1 7 = (Ok true, db')
                 /\ Agents.get_agent_by_id db' 1 = Err (ResourceNotFoundException "Agent" "1")
                 /\ In (2, 5) (Agents.agent_categories db')
                 /\ ~ In (1, 6) (Agents.agent_categories db').
Proof.
  assert (Hnd : NoDup (map Agents.id (Agents.agents linked_agents_db)))
    by (simpl; repeat constructor; simpl; lia).
  assert (Hok : Agents.agents_ok linked_agents_db = true) by (vm_compute; reflexivity).
  assert (Hin : In helper_agent (Agents.agents linked_agents_db)) by (vm_compute; left; reflexivity).
  split; [exact Hnd|]. split; [exact Hok|]. split; [exact Hin|].
  destruct (delete_agent_then_gone linked_agents_db helper_agent 7 Hnd Hok Hin eq_refl)
    as [db' [H1 [H2 [H3 [H4 _]]]]].
  exists db'. split; [exact H1|]. split; [exact H2|]. split.
  - apply H4; [simpl; auto | discriminate].
  - intros H. exact (H3 _ H eq_refl).
Defined.


Lemma update_agent_rename_taken_witness :
  reachable two_agents_db /\ In helper_agent (Agents.agents two_agents_db)
  /\ In writer_agent (Agents.agents two_agents_db)
  /\ Agents.update_agent two_agents_db 1
       (Agents.mkAgentUpdate (Some (Some "writer")) None None None None) 7
     = (Err (Exception_ "Failed to update agent"), two_agents_db).
Proof.
  assert (H1 : In helper_agent (Agents.agents two_agents_db)) by (vm_compute; left; reflexivity).
  assert (H2 : In writer_agent (Agents.agents two_agents_db)) by (vm_compute; right; left; reflexivity).
  split; [exact two_agents_db_reachable|]. split; [exact H1|]. split; [exact H2|].
  refine (update_agent_rename_taken two_agents_db helper_agent writer_agent 7
            two_agents_db_reachable H1 H2 _ eq_refl).
  vm_compute. discriminate.
Defined.


Lemma create_category_then_get_witness :
  CategoryService.ids_fresh (Categories.mkDb [] 1) = true
  /\ CategoryService.create_category_full (Categories.mkDb [] 1) (Categories.mkCategoryCreate "Books" None)
     = (Ok books, Categories.mkDb [books] 2)
  /\ CategoryService.get_category_by_id (Categories.mkDb [books] 2) 1 = Ok books.
Proof.
  assert (Hf : CategoryService.ids_fresh (Categories.mkDb [] 1) = true) by reflexivity.
  assert (H : CategoryService.create_category_full (Categories.mkDb [] 1)
                (Categories.mkCategoryCreate "Books" None) = (Ok books, Categories.mkDb [books] 2))
    by (vm_compute; reflexivity).
  split; [exact Hf|]. split; [exact H|].
  exact (proj1 (proj2 (create_category_then_get _ _ _ _ Hf H))).
Defined.



Lemma delete_category_then_gone_witness :
  (exists c, In c (Categories.categories three_categories) /\ Categories.cat_id c = 2)
  /\ CategoryService.delete_category three_categories 2 true
     = (Ok tt, Categories.mkDb [books; travel] 4)
  /\ CategoryService.get_category_by_id (Categories.mkDb [books; travel] 4) 2
     = Err (ResourceNotFoundException "Category" "2").
Proof.
  assert (H : exists c, In c (Categories.categories three_categories) /\ Categories.cat_id c = 2)
    by (exists music; split; [simpl; auto | reflexivity]).
  split; [exact H|].
  destruct (delete_category_then_gone three_categories 2 true H) as [db' [H1 [H2 _]]].
  assert (E : CategoryService.delete_category three_categories 2 true
              = (Ok tt, Categories.mkDb [books; travel] 4)) by (vm_compute; reflexivity).
  rewrite E in H1. injection H1 as <-. split; [exact E | exact H2].
Defined.

Lemma update_category_without_values_is_noop_witness :
  NoDup (map Categories.cat_id (Categories.categories three_categories))
  /\ Categories.names_ok (Categories.categories three_categories) = true
  /\ CategoryService.names_valid (Categories.categories three_categories) = true
  /\ CategoryService.update_category three_categories 2 (CategoryService.mkCategoryUpdate (Some "") None)
     = (Ok music, three_categories).
Proof.
  assert (Hnd : NoDup (map Categories.cat_id (Categories.categories three_categories)))
    by (simpl; repeat constructor; simpl; lia).
  assert (Hok : Categories.names_ok (Categories.categories three_categories) = true)
    by (vm_compute; reflexivity).
  assert (Hv : CategoryService.names_valid (Categories.categories three_categories) = true)
    by (vm_compute; reflexivity).
  split; [exact Hnd|]. split; [exact Hok|]. split; [exact Hv|].
  exact (update_category_without_values_is_noop three_categories music
           (CategoryService.mkCategoryUpdate (Some "") None) Hnd Hok Hv
           ltac:(simpl; auto) eq_refl eq_refl).
Defined.

Lemma update_category_name_taken_witness :
  NoDup (map Categories.cat_id (Categories.categories three_categories))
  /\ exists e, CategoryService.update_category three_categories 1
                 (CategoryService.mkCategoryUpdate (Some " music ") None) = (Err e, three_categories)
               /\ (e = DuplicateCategoryException "music" \/ e = MultipleResultsFound).
Proof.
  assert (Hnd : NoDup (map Categories.cat_id (Categories.categories three_categories)))
    by (simpl; repeat constructor; simpl; lia).
  split; [exact Hnd|].
  exact (update_category_name_taken three_categories books music
           (CategoryService.mkCategoryUpdate (Some " music ") None) " music " Hnd
           ltac:(simpl; auto) ltac:(simpl; auto) ltac:(vm_compute; discriminate) eq_refl
           ltac:(vm_compute; reflexivity) ltac:(vm_compute; reflexivity)).
Defined.


Lemma category_names_stay_valid_witness :
  CategoryService.names_valid (Categories.categories three_categories) = true
  /\ CategoryService.names_valid (Categories.categories
       (snd (CategoryService.update_category three_categories 3
               (CategoryService.mkCategoryUpdate (Some " Trips ") None)))) = true.
Proof.
  assert (Hv : CategoryService.names_valid (Categories.categories three_categories) = true)
    by (vm_compute; reflexivity).
  split; [exact Hv|].
  exact (proj1 (proj2 (category_names_stay_valid three_categories Hv)) 3 _).
Defined.


Lemma register_then_login_witness :
  (forall p, demo_verify p (demo_hash p) = true)
  /\ UserService.register_user demo_hash two_users
       (UserService.mkUserCreate "carol" (Some "Carol") "carol@example.com" "pw")
     = (Ok (Users.to_response (Users.mkUser 3 "carol" None "carol@example.com" "$2b$pw" true)),
        UserService.mkDb [alice_row; bob_row; Users.mkUser 3 "carol" None "carol@example.com" "$2b$pw" true] 4)
  /\ UserService.get_user_by_username
       (UserService.mkDb [alice_row; bob_row; Users.mkUser 3 "carol" None "carol@example.com" "$2b$pw" true] 4)
       "carol"
     = Ok (Users.to_response (Users.mkUser 3 "carol" None "carol@example.com" "$2b$pw" true)).
Proof.
  assert (Hv : forall p, demo_verify p (demo_hash p) = true)
    by (intros p; apply String.eqb_refl).
  assert (H : UserService.register_user demo_hash two_users
       (UserService.mkUserCreate "carol" (Some "Carol") "carol@example.com" "pw")
     = (Ok (Users.to_response (Users.mkUser 3 "carol" None "carol@example.com" "$2b$pw" true)),
        UserService.mkDb [alice_row; bob_row; Users.mkUser 3 "carol" None "carol@example.com" "$2b$pw" true] 4))
    by (vm_compute; reflexivity).
  split; [exact Hv|]. split; [exact H|].
  exact (proj1 (proj2 (register_then_login demo_hash demo_verify _ _ _ _ Hv H))).
Defined.


Lemma update_user_email_taken_witness :
  NoDup (map Users.id (UserService.users two_users))
  /\ NoDup (map Users.email (UserService.users two_users))
  /\ UserService.update_user_details two_users 1
       (UserService.mkUserUpdate None (Some "bob@example.com"))
     = (Err (DuplicateResourceException "User" "email=bob@example.com"), two_users).
Proof.
  assert (Hi : NoDup (map Users.id (UserService.users two_users)))
    by (simpl; repeat constructor; simpl; lia).
  assert (He : NoDup (map Users.email (UserService.users two_users)))
    by (simpl; repeat constructor; simpl; intuition discriminate).
  split; [exact Hi|]. split; [exact He|].
  exact (update_user_email_taken two_users alice_row bob_row None "bob@example.com" Hi He
           ltac:(simpl; auto) ltac:(simpl; auto) ltac:(discriminate) eq_refl ltac:(discriminate)).
Defined.


Lemma assign_then_user_groups_witness :
  Groups.assign_request (Groups.mkDb [(2, 10)] [1; 2] [10; 11]) 1 11
  = (Ok tt, Groups.mkDb [(2, 10); (1, 11)] [1; 2] [10; 11])
  /\ Permutation (GroupQueries.get_user_groups (Groups.mkDb [(2, 10); (1, 11)] [1; 2] [10; 11]) 1) [11]
  /\ Permutation (GroupQueries.get_user_groups (Groups.mkDb [(2, 10); (1, 11)] [1; 2] [10; 11]) 2) [10].
Proof.
  assert (H : Groups.assign_request (Groups.mkDb [(2, 10)] [1; 2] [10; 11]) 1 11
              = (Ok tt, Groups.mkDb [(2, 10); (1, 11)] [1; 2] [10; 11])) by (vm_compute; reflexivity).
  destruct (proj1 (assign_then_user_groups _ _ _ _ _ H) eq_refl) as [H1 H2].
  split; [exact H|]. split; [exact H1 | exact (H2 2 ltac:(discriminate))].
Defined.

Lemma token_lifetime_witness :
  60 * Tokens.us_per_s <> 0
  /\ Tokens.get_jwt_payload demo_sign "k"
       (Tokens.create_jwt_token demo_sign "k" "HS256" demo_token_data (Some (60 * Tokens.us_per_s)) 0)
       (59 * Tokens.us_per_s) = Ok demo_token_data
  /\ Tokens.get_jwt_payload demo_sign "k"
       (Tokens.create_jwt_token demo_sign "k" "HS256" demo_token_data (Some (60 * Tokens.us_per_s)) 0)
       (60 * Tokens.us_per_s) = Err (HTTPException 401 "Token expired").
Proof.
  assert (Hd : 60 * Tokens.us_per_s <> 0) by (unfold Tokens.us_per_s; lia).
  split; [exact Hd|]. split.
  - rewrite (token_lifetime demo_sign "k" demo_token_data _ 0 _ Hd). vm_compute. reflexivity.
  - rewrite (token_lifetime demo_sign "k" demo_token_data _ 0 _ Hd). vm_compute. reflexivity.
Defined.

Lemma token_other_algorithm_rejected_witness :
  ("HS512" = "HS384" \/ "HS512" = "HS512")
  /\ Tokens.get_jwt_payload demo_sign "k"
       (Tokens.create_jwt_token demo_sign "k" "HS512" demo_token_data None 0) 0
     = Err (HTTPException 401 "Invalid token").
Proof.
  assert (H : "HS512" = "HS384" \/ "HS512" = "HS512") by (right; reflexivity).
  split; [exact H|]. exact (token_other_algorithm_rejected demo_sign "k" "HS512" _ None 0 0 H).
Defined.

Lemma token_other_key_rejected_witness :
  (forall c, demo_sign "k1" "HS256" c <> demo_sign "k2" "HS256" c)
  /\ Tokens.get_jwt_payload demo_sign "k2"
       (Tokens.create_jwt_token demo_sign "k1" "HS256" demo_token_data None 0) (Tokens.thirty_minutes * 2)
     = Err (HTTPException 401 "Invalid token").
Proof.
  assert (H : forall c, demo_sign "k1" "HS256" c <> demo_sign "k2" "HS256" c)
    by (intros c; vm_compute; discriminate).
  split; [exact H|]. exact (token_other_key_rejected demo_sign "k1" "k2" _ None 0 _ H).
Defined.
